(** * A model of [app.py], the front-end of the financial Q&A chatbot

    The client is integration glue: it issues HTTP calls to a remote
    back-end, decodes the JSON replies and turns them into widget
    values.  The functions of [app.py] are embedded below as Rocq
    functions over

    - [json], the values [response.json()] hands to the client, with the
      Python operations the client applies to them (subscription,
      [.get], truthiness, [==], iteration, [+=], [str]);
    - [result], a value or a raised Python exception;
    - [M], a state-and-exception monad over the log of the effects the
      client performs (HTTP requests, local file opens, [print]), run
      against a [World] that decides what every request yields.

    JSON numbers are modelled as integers.  A Python list that the code
    mutates in place and returns (the chat transcript) is modelled as the
    list value after the mutation. *)

From Stdlib Require Import List String Ascii ZArith Bool Lia DecimalString.
Import ListNotations.
Open Scope string_scope.
Set Warnings "-register-all".

(** ** Values decoded from JSON *)

(** A decoded [dict] is an association list; a key is looked up from the
    front. *)
Inductive json : Type :=
| JNull
| JBool (b : bool)
| JInt (z : Z)
| JStr (s : string)
| JArr (l : list json)
| JObj (kvs : list (string * json)).

(** ** Exceptions *)

(** The classes that matter to the handlers of [app.py]:
    [requests.exceptions.RequestException] (and its subclasses
    [ConnectionError], [HTTPError], [JSONDecodeError], ...) is what
    [upload_file] tells apart from every other [Exception]. *)
Inductive exn_class : Type :=
| RequestException
| OSError
| KeyError
| TypeError
| AttributeError
| OtherException.

Record exn : Type := mkExn { exn_kind : exn_class; exn_text : string }.

(** [str(e)] *)
Definition str_exn (e : exn) : string := exn_text e.

Definition is_request_exception (e : exn) : bool :=
  match exn_kind e with RequestException => true | _ => false end.

Inductive result (A : Type) : Type :=
| Ok (a : A)
| Raise (e : exn).
Arguments Ok {A} a.
Arguments Raise {A} e.

Definition rbind {A B} (r : result A) (k : A -> result B) : result B :=
  match r with
  | Ok a => k a
  | Raise e => Raise e
  end.

Declare Scope result_scope.
Delimit Scope result_scope with result.
Notation "x <-? r ; k" := (rbind r (fun x => k))
  (at level 61, r at next level, right associativity) : result_scope.

(** ** Python operations on decoded values *)

Definition py_type_name (v : json) : string :=
  match v with
  | JNull => "NoneType"
  | JBool _ => "bool"
  | JInt _ => "int"
  | JStr _ => "str"
  | JArr _ => "list"
  | JObj _ => "dict"
  end.

(** [bool(v)], the test of [if v:] *)
Definition truthy (v : json) : bool :=
  match v with
  | JNull => false
  | JBool b => b
  | JInt z => negb (z =? 0)%Z
  | JStr s => negb (String.eqb s "")
  | JArr l => match l with [] => false | _ :: _ => true end
  | JObj kvs => match kvs with [] => false | _ :: _ => true end
  end.

Fixpoint assoc (k : string) (kvs : list (string * json)) : option json :=
  match kvs with
  | [] => None
  | (k', v) :: rest => if String.eqb k' k then Some v else assoc k rest
  end.

(** [v[k]] for a string literal [k]; the texts are CPython's. *)
Definition py_getitem (v : json) (k : string) : result json :=
  match v with
  | JObj kvs =>
      match assoc k kvs with
      | Some x => Ok x
      | None => Raise (mkExn KeyError ("'" ++ k ++ "'"))
      end
  | JArr _ =>
      Raise (mkExn TypeError "list indices must be integers or slices, not str")
  | JStr _ =>
      Raise (mkExn TypeError "string indices must be integers, not 'str'")
  | _ =>
      Raise (mkExn TypeError
               ("'" ++ py_type_name v ++ "' object is not subscriptable"))
  end.

(** [v.get(k, default)] *)
Definition py_get (v : json) (k : string) (default : json) : result json :=
  match v with
  | JObj kvs =>
      match assoc k kvs with
      | Some x => Ok x
      | None => Ok default
      end
  | _ =>
      Raise (mkExn AttributeError
               ("'" ++ py_type_name v ++ "' object has no attribute 'get'"))
  end.

(** [v == s] for a string [s]: values of different types are unequal. *)
Definition py_eq_str (v : json) (s : string) : bool :=
  match v with
  | JStr t => String.eqb t s
  | _ => false
  end.

(** The characters of a string, each as a string of its own (a string is
    a sequence of bytes here, so this is Python's view on ASCII text). *)
Fixpoint chars (s : string) : list json :=
  match s with
  | EmptyString => []
  | String c rest => JStr (String c EmptyString) :: chars rest
  end.

(** The items a [for x in v] loop visits: the elements of a list, the
    keys of a dict, the characters of a string. *)
Definition py_iter (v : json) : result (list json) :=
  match v with
  | JArr l => Ok l
  | JObj kvs => Ok (map (fun kv => JStr (fst kv)) kvs)
  | JStr s => Ok (chars s)
  | _ =>
      Raise (mkExn TypeError
               ("'" ++ py_type_name v ++ "' object is not iterable"))
  end.

(** [v += s] for a string [s]: concatenation on a string, [extend] with
    the characters on a list, [TypeError] otherwise. *)
Definition py_iadd_str (v : json) (s : string) : result json :=
  match v with
  | JStr t => Ok (JStr (t ++ s))
  | JArr l => Ok (JArr (l ++ chars s)%list)
  | _ =>
      Raise (mkExn TypeError
               ("unsupported operand type(s) for +=: '" ++ py_type_name v
                  ++ "' and 'str'"))
  end.

(** [str(z)] for an integer *)
Definition str_int (z : Z) : string := NilZero.string_of_int (Z.to_int z).

(** The line feed of the Python literal ["\n"] *)
Definition nl : string := String (ascii_of_nat 10) EmptyString.

(** ** The world outside the client *)

Inductive method : Type := GET | POST | DELETE.

(** What a request carries: nothing, a [json=] body, or a [files=]
    multipart body with one field. *)
Inductive payload : Type :=
| NoPayload
| JsonPayload (body : json)
| FilesPayload (field : string) (filename : string) (content : string)
    (mime : string).

(** The effects of the client, in the order they happen. *)
Inductive event : Type :=
| EvRequest (m : method) (url : string) (p : payload)
| EvOpen (path : string)
| EvPrint (args : list json).

Definition trace : Type := list event.

(** A reply as the client sees it: [raise_for_status] looks at the status
    and raises [http_error]; [json()] yields [json_body], a decoded value
    or the exception of a body that does not decode. *)
Record response : Type := mkResponse {
  status_code : Z;
  http_error : exn;
  json_body : result json
}.

(** [requests] raises [HTTPError] for the statuses 400 to 599. *)
Definition is_http_failure (code : Z) : bool :=
  ((400 <=? code) && (code <? 600))%Z.

Definition raise_for_status (r : response) : result unit :=
  if is_http_failure (status_code r) then Raise (http_error r) else Ok tt.

(** The back-end and the local file system: what a request yields (a
    reply, or the exception of a failed transport) and what opening and
    reading a file yields, given everything the client did before. *)
Record World : Type := mkWorld {
  http_send : trace -> method -> string -> payload -> result response;
  file_read : trace -> string -> result string
}.

(** ** The monad of the client: effects logged, exceptions propagated *)

Definition M (A : Type) : Type := World -> trace -> result A * trace.

Definition ret {A} (a : A) : M A := fun _ tr => (Ok a, tr).

Definition bind {A B} (m : M A) (k : A -> M B) : M B :=
  fun w tr =>
    match m w tr with
    | (Ok a, tr') => k a w tr'
    | (Raise e, tr') => (Raise e, tr')
    end.

Definition lift {A} (r : result A) : M A := fun _ tr => (r, tr).

(** [try: m  except Exception as e: h e]; the effects of [m] up to the
    exception stay in the log. *)
Definition try_except {A} (m : M A) (h : exn -> M A) : M A :=
  fun w tr =>
    match m w tr with
    | (Ok a, tr') => (Ok a, tr')
    | (Raise e, tr') => h e w tr'
    end.

Declare Scope client_scope.
Delimit Scope client_scope with client.
Notation "x <- m ;; k" := (bind m (fun x => k))
  (at level 61, m at next level, right associativity) : client_scope.
Notation "' pat <- m ;; k" := (bind m (fun x => match x with pat => k end))
  (at level 61, pat pattern, m at next level, right associativity)
  : client_scope.

(** [requests.get], [requests.post], [requests.delete] *)
Definition requests_request (m : method) (url : string) (p : payload)
  : M response :=
  fun w tr => (http_send w tr m url p, (tr ++ [EvRequest m url p])%list).

(** [open(path, 'rb')] and the read of the whole file *)
Definition open_rb (path : string) : M string :=
  fun w tr => (file_read w tr path, (tr ++ [EvOpen path])%list).

(** [print], with its arguments *)
Definition py_print (args : list json) : M unit :=
  fun _ tr => (Ok tt, (tr ++ [EvPrint args])%list).

(** ** [app.py] *)

Definition BASE_URL : string := "https://512e-34-16-184-229.ngrok-free.app".

(** [{"status": "error", "message": msg}] *)
Definition error_dict (msg : string) : json :=
  JObj [("status", JStr "error"); ("message", JStr msg)].

Open Scope client_scope.

Definition get_vector_db_info : M json :=
  try_except
    (response <- requests_request GET (BASE_URL ++ "/vector-db/info") NoPayload ;;
     _ <- lift (raise_for_status response) ;;
     lift (json_body response))
    (fun e => ret (error_dict (str_exn e))).

(** The file object of the upload widget; only its [name], the path of
    the temporary copy, is used. *)
Record gradio_file : Type := mkFile { name : string }.

(** [os.path.basename] (POSIX): what follows the last slash *)
Fixpoint basename_from (acc : string) (s : string) : string :=
  match s with
  | EmptyString => acc
  | String c rest =>
      if Ascii.eqb c "/"%char then basename_from rest rest
      else basename_from acc rest
  end.

Definition basename (path : string) : string := basename_from path path.

Definition upload_file (file : option gradio_file) : M json :=
  try_except
    (match file with
     | None => ret (error_dict "No file selected")
     | Some fobj =>
         let file_path := name fobj in
         f <- open_rb file_path ;;
         response <- requests_request POST (BASE_URL ++ "/vector-db/add-document")
                       (FilesPayload "file" (basename file_path) f
                          "application/octet-stream") ;;
         _ <- lift (raise_for_status response) ;;
         res <- lift (json_body response) ;;
         ret res
     end)
    (fun e =>
       if is_request_exception e
       then ret (error_dict ("Network error: " ++ str_exn e))
       else ret (error_dict ("Upload error: " ++ str_exn e))).

Definition delete_file (file_id : string) : M json :=
  try_except
    (response <- requests_request DELETE
                   (BASE_URL ++ "/vector-db/delete-document/" ++ file_id)
                   NoPayload ;;
     _ <- lift (raise_for_status response) ;;
     lift (json_body response))
    (fun e => ret (error_dict (str_exn e))).

Definition get_uploaded_files_info : M json :=
  try_except
    (response <- requests_request GET (BASE_URL ++ "/vector-db/info") NoPayload ;;
     _ <- lift (raise_for_status response) ;;
     info <- lift (json_body response) ;;
     _ <- py_print [JStr "[DEBUG] /vector-db/info response:"; info] ;;
     lift (py_get info "files" (JArr [])))
    (fun e =>
       _ <- py_print [JStr ("[DEBUG] Error fetching files: " ++ str_exn e)] ;;
       ret (JArr [])).

(** The chat transcript: the [user, assistant] pairs of the chat widget. *)
Definition transcript : Type := list (json * json).

(** [{"role": role, "content": content}] *)
Definition history_entry (role : string) (content : json) : json :=
  JObj [("role", JStr role); ("content", content)].

(** The loop of [chat_with_documents] that builds [api_history]: two
    [append]s per pair. *)
Definition api_history_of (history : transcript) : list json :=
  fold_left
    (fun api_history pair =>
       let '(human, ai) := pair in
       ((api_history ++ [history_entry "user" human])
          ++ [history_entry "assistant" ai])%list)
    history [].

(** [msg or default] on strings *)
Definition str_or (msg default : string) : string :=
  if String.eqb msg "" then default else msg.

(** The summary that ends [delete_files_from_db]. *)
Definition delete_summary (deleted errors : list string) : string :=
  let msg := "" in
  let msg :=
    match deleted with
    | [] => msg
    | _ :: _ => msg ++ ("Deleted: " ++ String.concat ", " deleted ++ ". ")
    end in
  let msg :=
    match errors with
    | [] => msg
    | _ :: _ => msg ++ ("Errors: " ++ String.concat "; " errors)
    end in
  str_or msg "No files deleted.".

(** [f"{fname}: {reason}"], an entry of [errors] *)
Definition error_entry (fname reason : string) : string :=
  fname ++ ": " ++ reason.

(** The inner loop of [delete_files_from_db]: [file_id] starts as [None]
    and takes the ["file_id"] of the first record whose ["filename"]
    equals [fname]; the loop stops there. *)
Fixpoint find_file_id (files_info : list json) (fname : string)
  : result json :=
  match files_info with
  | [] => Ok JNull
  | f :: rest =>
      (v <-? py_getitem f "filename" ;
       if py_eq_str v fname then py_getitem f "file_id"
       else find_file_id rest fname)%result
  end.

(** A list comprehension [[g x for x in items]] whose [g] may raise. *)
Fixpoint comprehension {A} (g : json -> result A) (items : list json)
  : result (list A) :=
  match items with
  | [] => Ok []
  | x :: rest =>
      (y <-? g x ;
       ys <-? comprehension g rest ;
       Ok (y :: ys))%result
  end.

Definition get_filenames_list : M (list json) :=
  files_info <- get_uploaded_files_info ;;
  items <- lift (py_iter files_info) ;;
  lift (comprehension (fun f => py_getitem f "filename") items).

Section Client.

(** CPython's [repr] of a decoded list or dict.  The client never looks
    at it; it can only interpolate it into a text. *)
Variable py_repr : json -> string.

(** [str(v)], what an f-string puts for [{v}] *)
Definition py_str (v : json) : string :=
  match v with
  | JNull => "None"
  | JBool true => "True"
  | JBool false => "False"
  | JInt z => str_int z
  | JStr s => s
  | JArr _ | JObj _ => py_repr v
  end.

(** [f"- {s['filename']}"] *)
Definition source_line (s : json) : result string :=
  (v <-? py_getitem s "filename" ;
   Ok ("- " ++ py_str v))%result.

(** Lines 73 to 76 of [chat_with_documents]: the answer, with the
    sources block when [sources] is truthy. *)
Definition format_answer (res : json) : result json :=
  (answer <-? py_getitem res "answer" ;
   sources <-? py_getitem res "sources" ;
   if truthy sources then
     items <-? py_iter sources ;
     lines <-? comprehension source_line items ;
     py_iadd_str answer
       (nl ++ nl ++ "Sources:" ++ nl ++ String.concat nl lines)
   else Ok answer)%result.

(** The body of the [try] of [chat_with_documents]. *)
Definition chat_attempt (message : string) (history : transcript)
  : M transcript :=
  let api_history := api_history_of history in
  response <- requests_request POST (BASE_URL ++ "/chat")
                (JsonPayload
                   (JObj [("query", JStr message);
                          ("history", JArr api_history)])) ;;
  _ <- lift (raise_for_status response) ;;
  res <- lift (json_body response) ;;
  answer <- lift (format_answer res) ;;
  ret (history ++ [(JStr message, answer)])%list.

Definition chat_with_documents (message : string) (history : transcript)
  : M transcript :=
  try_except
    (chat_attempt message history)
    (fun e =>
       let error_message := "Error: " ++ str_exn e in
       ret (history ++ [(JStr message, JStr error_message)])%list).

(** One turn of the outer loop of [delete_files_from_db], on the lists
    [deleted] and [errors] it extends. *)
Definition delete_one (files_info : json) (fname : string)
    (acc : list string * list string) : M (list string * list string) :=
  let '(deleted, errors) := acc in
  items <- lift (py_iter files_info) ;;
  file_id <- lift (find_file_id items fname) ;;
  if truthy file_id then
    try_except
      (response <- requests_request DELETE
                     (BASE_URL ++ "/vector-db/delete-document/"
                        ++ py_str file_id) NoPayload ;;
       _ <- lift (raise_for_status response) ;;
       ret ((deleted ++ [fname])%list, errors))
      (fun e => ret (deleted, (errors ++ [error_entry fname (str_exn e)])%list))
  else
    ret (deleted, (errors ++ [error_entry fname "Not found"])%list).

Fixpoint delete_loop (files_info : json) (filenames : list string)
    (acc : list string * list string) : M (list string * list string) :=
  match filenames with
  | [] => ret acc
  | fname :: rest =>
      acc' <- delete_one files_info fname acc ;;
      delete_loop files_info rest acc'
  end.

Definition delete_files_from_db (filenames : list string) : M string :=
  match filenames with
  | [] => ret "No files selected."
  | _ :: _ =>
      files_info <- get_uploaded_files_info ;;
      '(deleted, errors) <- delete_loop files_info filenames ([], []) ;;
      ret (delete_summary deleted errors)
  end.

End Client.

(** ** Vocabulary of the specification *)

Definition info_url : string := BASE_URL ++ "/vector-db/info".

Definition chat_url : string := BASE_URL ++ "/chat".

Definition info_request : event := EvRequest GET info_url NoPayload.

(** The request a chat turn sends. *)
Definition chat_request (message : string) (history : transcript) : event :=
  EvRequest POST chat_url
    (JsonPayload (JObj [("query", JStr message);
                        ("history", JArr (api_history_of history))])).

(** A request fails when the transport raises, or when the reply has a
    status that [raise_for_status] turns into an [HTTPError]. *)
Inductive request_fails (w : World) (tr : trace) (m : method) (url : string)
  (p : payload) : exn -> Prop :=
| transport_fails e :
    http_send w tr m url p = Raise e ->
    request_fails w tr m url p e
| status_fails r :
    http_send w tr m url p = Ok r ->
    is_http_failure (status_code r) = true ->
    request_fails w tr m url p (http_error r).

(** A request succeeds with the reply [r]. *)
Definition request_succeeds (w : World) (tr : trace) (m : method)
  (url : string) (p : payload) (r : response) : Prop :=
  http_send w tr m url p = Ok r /\ is_http_failure (status_code r) = false.

(** The request followed by [raise_for_status], the opening of every
    [try] block of the client. *)
Definition checked_request (m : method) (url : string) (p : payload)
  : M response :=
  response <- requests_request m url p ;;
  _ <- lift (raise_for_status response) ;;
  ret response.

(** The fetch of the index fails: the request fails, or the body of the
    reply does not decode. *)
Inductive index_fetch_fails (w : World) (tr : trace) : exn -> Prop :=
| index_request_fails e :
    request_fails w tr GET info_url NoPayload e ->
    index_fetch_fails w tr e
| index_decode_fails r e :
    request_succeeds w tr GET info_url NoPayload r ->
    json_body r = Raise e ->
    index_fetch_fails w tr e.

(** The back-end answers the chat turn with the decoded body [res]. *)
Definition chat_reply (w : World) (tr : trace) (message : string)
  (history : transcript) (res : json) : Prop :=
  exists r,
    request_succeeds w tr POST chat_url
      (JsonPayload (JObj [("query", JStr message);
                          ("history", JArr (api_history_of history))])) r
    /\ json_body r = Ok res.

(** The two wire entries of one pair of the transcript. *)
Definition wire_pair (pair : json * json) : list json :=
  [history_entry "user" (fst pair); history_entry "assistant" (snd pair)].

(** The source record [s] cites the file named [f]. *)
Definition cites (s : json) (f : string) : Prop :=
  py_getitem s "filename" = Ok (JStr f).

(** The block appended to an answer, one line per name of [names]. *)
Definition sources_block (names : list string) : string :=
  nl ++ nl ++ "Sources:" ++ nl
     ++ String.concat nl (map (fun f => "- " ++ f) names).

(** The block as the specification words it: one line per distinct
    filename. *)
Definition distinct_sources_block (names : list string) : string :=
  sources_block (nodup string_dec names).

(** The record [f] of the index has both keys the deletion reads. *)
Definition has_record_keys (f : json) : Prop :=
  (exists v, py_getitem f "filename" = Ok v)
  /\ (exists v, py_getitem f "file_id" = Ok v).

(** The record [g] has a filename, and it is not [fname]. *)
Definition other_file (fname : string) (g : json) : Prop :=
  exists v, py_getitem g "filename" = Ok v /\ py_eq_str v fname = false.

Definition delete_request (py_repr : json -> string) (file_id : json)
  : event :=
  EvRequest DELETE
    (BASE_URL ++ "/vector-db/delete-document/" ++ py_str py_repr file_id)
    NoPayload.

(** The requests one turn of the deletion loop sends for a resolved
    [file_id]. *)
Definition delete_requests (py_repr : json -> string) (file_id : json)
  : trace :=
  if truthy file_id then [delete_request py_repr file_id] else [].

(** The requests the deletion loop sends for [fname], from the listing. *)
Definition requests_for (py_repr : json -> string) (files : list json)
  (fname : string) : trace :=
  match find_file_id files fname with
  | Ok file_id => delete_requests py_repr file_id
  | Raise _ => []
  end.

(** The summary as the specification words it: a clause per non-empty
    list, a fixed text when both are empty. *)
Definition spec_summary (deleted errors : list string) : string :=
  match deleted, errors with
  | [], [] => "No files deleted."
  | _ :: _, [] => "Deleted: " ++ String.concat ", " deleted ++ ". "
  | [], _ :: _ => "Errors: " ++ String.concat "; " errors
  | _ :: _, _ :: _ =>
      "Deleted: " ++ String.concat ", " deleted ++ ". "
        ++ "Errors: " ++ String.concat "; " errors
  end.

(** [tally filenames deleted errors]: every selected filename, in the
    order of the selection, is either in [deleted] or has its entry
    [fname: reason] in [errors]. *)
Inductive tally : list string -> list string -> list string -> Prop :=
| tally_done : tally [] [] []
| tally_deleted fname rest deleted errors :
    tally rest deleted errors ->
    tally (fname :: rest) (fname :: deleted) errors
| tally_failed fname reason rest deleted errors :
    tally rest deleted errors ->
    tally (fname :: rest) deleted (error_entry fname reason :: errors).


(** ** Sample worlds *)

Definition reply_ok (body : json) : result response :=
  Ok (mkResponse 200 (mkExn RequestException "") (Ok body)).

Definition source_record (f : string) : json := JObj [("filename", JStr f)].

Definition document_record (file_id filename : string) : json :=
  JObj [("file_id", JStr file_id); ("filename", JStr filename)].

(** An interpreter whose [repr] is not looked at. *)
Definition repr_none (v : json) : string := "".

(** A back-end that cites the same file for two retrieved passages. *)
Definition world_two_passages : World :=
  mkWorld
    (fun _ _ _ _ =>
       reply_ok (JObj [("answer", JStr "A");
                       ("sources", JArr [source_record "a.pdf";
                                         source_record "a.pdf"])]))
    (fun _ _ => Ok "").

(** A back-end that answers without sources. *)
Definition world_no_sources : World :=
  mkWorld
    (fun _ _ _ _ =>
       reply_ok (JObj [("answer", JStr "A"); ("sources", JArr [])]))
    (fun _ _ => Ok "").

(** A back-end that cannot be reached. *)
Definition connection_refused : exn :=
  mkExn RequestException "Connection refused".

Definition world_down : World :=
  mkWorld (fun _ _ _ _ => Raise connection_refused) (fun _ _ => Ok "").

(** A back-end that holds one document, [a.pdf], and deletes on request. *)
Definition index_one_file : json :=
  JObj [("status", JStr "ok");
        ("files", JArr [document_record "id1" "a.pdf"])].

Definition world_one_file : World :=
  mkWorld
    (fun _ m _ _ =>
       match m with
       | GET => reply_ok index_one_file
       | _ => reply_ok (JObj [("status", JStr "ok")])
       end)
    (fun _ _ => Ok "").

(** A listing in which two records share the filename [a.pdf]. *)
Definition colliding_files : list json :=
  [document_record "id0" "b.pdf"; document_record "id1" "a.pdf";
   document_record "id2" "a.pdf"].

(** A listing whose first record for [a.pdf] has an empty [file_id]. *)
Definition blank_id_files : list json :=
  [document_record "id0" "b.pdf"; document_record "" "a.pdf";
   document_record "id2" "a.pdf"].

Definition world_listing (files : list json) : World :=
  mkWorld
    (fun _ m _ _ =>
       match m with
       | GET => reply_ok (JObj [("files", JArr files)])
       | _ => reply_ok (JObj [("status", JStr "ok")])
       end)
    (fun _ _ => Ok "").

(** ** Vocabulary for the rest of the client *)

Definition upload_url : string := BASE_URL ++ "/vector-db/add-document".

(** The multipart body [upload_file] sends for the file at [path]. *)
Definition upload_payload (path content : string) : payload :=
  FilesPayload "file" (basename path) content "application/octet-stream".

(** How the handlers of [upload_file] introduce the text of [e]. *)
Definition upload_error_prefix (e : exn) : string :=
  if is_request_exception e then "Network error: " else "Upload error: ".

(** A call fails: the request fails, or the body of the reply does not
    decode. *)
Inductive call_fails (w : World) (tr : trace) (m : method) (url : string)
  (p : payload) : exn -> Prop :=
| call_request_fails e :
    request_fails w tr m url p e ->
    call_fails w tr m url p e
| call_decode_fails r e :
    request_succeeds w tr m url p r ->
    json_body r = Raise e ->
    call_fails w tr m url p e.

(** A call succeeds with the decoded body [v]. *)
Definition call_returns (w : World) (tr : trace) (m : method) (url : string)
  (p : payload) (v : json) : Prop :=
  exists r, request_succeeds w tr m url p r /\ json_body r = Ok v.

Fixpoint has_slash (s : string) : bool :=
  match s with
  | EmptyString => false
  | String c rest => Ascii.eqb c "/"%char || has_slash rest
  end.

(** The ["files"] entry of what the information panel shows, the empty
    list when there is none. *)
Definition files_of_info (info : json) : json :=
  match info with
  | JObj kvs =>
      match assoc "files" kvs with
      | Some v => v
      | None => JArr []
      end
  | _ => JArr []
  end.

Definition is_object (v : json) : bool :=
  match v with JObj _ => true | _ => false end.

(** [f] is a dict without the key [k]. *)
Definition lacks_key (k : string) (f : json) : Prop :=
  exists kvs, f = JObj kvs /\ assoc k kvs = None.

Definition has_filename (f : json) : Prop :=
  exists v, py_getitem f "filename" = Ok v.

(** [+=] with a string is defined on strings and lists only. *)
Definition takes_iadd_str (v : json) : bool :=
  match v with JStr _ | JArr _ => true | _ => false end.

Definition delete_url (file_id : string) : string :=
  BASE_URL ++ "/vector-db/delete-document/" ++ file_id.

(** A back-end whose file system cannot read the upload. *)
Definition permission_denied : exn := mkExn OSError "Permission denied".

Definition world_unreadable : World :=
  mkWorld (fun _ _ _ _ => reply_ok (JObj [("status", JStr "ok")]))
    (fun _ _ => Raise permission_denied).

(** A back-end that answers every request with the body [body]. *)
Definition world_body (body : json) : World :=
  mkWorld (fun _ _ _ _ => reply_ok body) (fun _ _ => Ok "data").

(** A back-end that lists [files] and refuses every deletion. *)
Definition not_found_error : exn :=
  mkExn RequestException "404 Client Error: Not Found".

Definition world_refusing (files : list json) : World :=
  mkWorld
    (fun _ m _ _ =>
       match m with
       | GET => reply_ok (JObj [("files", JArr files)])
       | _ => Ok (mkResponse 404 not_found_error (Ok JNull))
       end)
    (fun _ _ => Ok "").

(** The entries of [errors] when nothing selected is found. *)
Definition not_found_entries (filenames : list string) : list string :=
  map (fun fname => error_entry fname "Not found") filenames.

Definition is_request (ev : event) : bool :=
  match ev with EvRequest _ _ _ => true | _ => false end.

(** ** The outcome of a deletion, filename by filename *)

(** [deletion_run py_repr w files filenames tr deleted errors tr']: the
    world [w] decides each selected filename in turn, from the log [tr]
    on.  A filename is in [deleted] exactly when its first record has a
    truthy identifier and the delete request for it gets a reply without
    an error status; it has the entry "fname: text" in [errors] when that
    request fails with an exception of that text, and the entry
    "fname: Not found" when no truthy identifier is found, in which case
    nothing is sent. *)
Inductive deletion_run (py_repr : json -> string) (w : World)
  (files : list json)
  : list string -> trace -> list string -> list string -> trace -> Prop :=
| run_done tr :
    deletion_run py_repr w files [] tr [] [] tr
| run_deleted fname rest tr file_id r deleted errors tr' :
    find_file_id files fname = Ok file_id ->
    truthy file_id = true ->
    request_succeeds w tr DELETE
      (BASE_URL ++ "/vector-db/delete-document/" ++ py_str py_repr file_id)
      NoPayload r ->
    deletion_run py_repr w files rest
      (tr ++ [delete_request py_repr file_id])%list deleted errors tr' ->
    deletion_run py_repr w files (fname :: rest) tr
      (fname :: deleted) errors tr'
| run_failed fname rest tr file_id e deleted errors tr' :
    find_file_id files fname = Ok file_id ->
    truthy file_id = true ->
    request_fails w tr DELETE
      (BASE_URL ++ "/vector-db/delete-document/" ++ py_str py_repr file_id)
      NoPayload e ->
    deletion_run py_repr w files rest
      (tr ++ [delete_request py_repr file_id])%list deleted errors tr' ->
    deletion_run py_repr w files (fname :: rest) tr
      deleted (error_entry fname (str_exn e) :: errors) tr'
| run_not_found fname rest tr file_id deleted errors tr' :
    find_file_id files fname = Ok file_id ->
    truthy file_id = false ->
    deletion_run py_repr w files rest tr deleted errors tr' ->
    deletion_run py_repr w files (fname :: rest) tr
      deleted (error_entry fname "Not found" :: errors) tr'.

(** The statuses 200 to 299. *)
Definition is_2xx (code : Z) : bool := ((200 <=? code) && (code <? 300))%Z.

(** A back-end behind a redirect that [requests] does not follow: the
    reply has the status 302 and a body that decodes. *)
Definition redirect_body : json := JObj [("detail", JStr "Found")].

Definition world_redirect : World :=
  mkWorld
    (fun _ _ _ _ =>
       Ok (mkResponse 302 (mkExn RequestException "302") (Ok redirect_body)))
    (fun _ _ => Ok "").

(** * Properties *)

(** ** Stepping a client computation *)

Lemma bind_ok {A B} (m : M A) (k : A -> M B) w tr a tr' :
  m w tr = (Ok a, tr') -> bind m k w tr = k a w tr'.
Proof. intros H. unfold bind. rewrite H. reflexivity. Qed.

Lemma bind_raise {A B} (m : M A) (k : A -> M B) w tr e tr' :
  m w tr = (Raise e, tr') -> bind m k w tr = (Raise e, tr').
Proof. intros H. unfold bind. rewrite H. reflexivity. Qed.

Lemma try_except_ok {A} (m : M A) h w tr a tr' :
  m w tr = (Ok a, tr') -> try_except m h w tr = (Ok a, tr').
Proof. intros H. unfold try_except. rewrite H. reflexivity. Qed.

Lemma try_except_raise {A} (m : M A) h w tr e tr' :
  m w tr = (Raise e, tr') -> try_except m h w tr = h e w tr'.
Proof. intros H. unfold try_except. rewrite H. reflexivity. Qed.

Lemma checked_request_fails w tr m url p e :
  request_fails w tr m url p e ->
  checked_request m url p w tr = (Raise e, (tr ++ [EvRequest m url p])%list).
Proof.
  intros [e' H | r H Hs]; unfold checked_request, bind, requests_request;
    rewrite H; [reflexivity|].
  unfold lift, raise_for_status. rewrite Hs. reflexivity.
Qed.

Lemma checked_request_succeeds w tr m url p r :
  request_succeeds w tr m url p r ->
  checked_request m url p w tr = (Ok r, (tr ++ [EvRequest m url p])%list).
Proof.
  intros [H Hs]. unfold checked_request, bind, requests_request.
  rewrite H. unfold lift, raise_for_status. rewrite Hs. reflexivity.
Qed.

(** The first two steps of a [try] block are a checked request. *)
Lemma checked_request_bind {A} m url p (k : response -> M A) w tr :
  bind (requests_request m url p)
       (fun response => bind (lift (raise_for_status response))
                          (fun _ => k response)) w tr
  = bind (checked_request m url p) k w tr.
Proof.
  unfold checked_request, bind, requests_request, lift, ret.
  destruct (http_send w tr m url p) as [r|e]; [|reflexivity].
  destruct (raise_for_status r); reflexivity.
Qed.

(** Every request fails or succeeds. *)
Lemma request_outcome w tr m url p :
  (exists e, request_fails w tr m url p e)
  \/ (exists r, request_succeeds w tr m url p r).
Proof.
  destruct (http_send w tr m url p) as [r|e] eqn:H.
  - destruct (is_http_failure (status_code r)) eqn:Hs.
    + left. exists (http_error r). now apply status_fails.
    + right. exists r. now split.
  - left. exists e. now apply transport_fails.
Qed.

Ltac step_request H :=
  rewrite checked_request_bind;
  first
    [ erewrite bind_ok by (apply checked_request_succeeds; exact H)
    | erewrite bind_raise by (apply checked_request_fails; exact H) ].

(** ** The index information *)

(** [get_vector_db_info] hands a value to its caller in every world. *)
Lemma get_vector_db_info_total w tr :
  exists v, get_vector_db_info w tr = (Ok v, (tr ++ [info_request])%list).
Proof.
  unfold get_vector_db_info, try_except.
  destruct (request_outcome w tr GET info_url NoPayload) as [[e H]|[r H]];
    step_request H.
  - eexists. reflexivity.
  - unfold lift. destruct (json_body r); eexists; reflexivity.
Qed.

(** C8, as amended: when the fetch of the index information fails -- the
    transport raises, the reply has an error status (400 to 599, the
    statuses for which [raise_for_status] raises), or its body does not
    decode -- [get_vector_db_info] returns the value
    [{"status": "error", "message": str(e)}] for the error [e]; it raises
    nothing. *)
Theorem get_vector_db_info_failure w tr e :
  index_fetch_fails w tr e ->
  get_vector_db_info w tr
  = (Ok (JObj [("status", JStr "error"); ("message", JStr (str_exn e))]),
     (tr ++ [EvRequest GET (BASE_URL ++ "/vector-db/info") NoPayload])%list).
Proof.
  intros [e' H | r e' H Hb]; unfold get_vector_db_info, try_except;
    step_request H; [reflexivity|].
  unfold lift. rewrite Hb. reflexivity.
Qed.

Lemma world_down_fetch_fails :
  index_fetch_fails world_down [] connection_refused.
Proof. apply index_request_fails, transport_fails. reflexivity. Defined.

Lemma get_vector_db_info_failure_witness :
  index_fetch_fails world_down [] connection_refused
  /\ get_vector_db_info world_down []
     = (Ok (JObj [("status", JStr "error");
                  ("message", JStr "Connection refused")]),
        [EvRequest GET (BASE_URL ++ "/vector-db/info") NoPayload]).
Proof.
  split; [exact world_down_fetch_fails|].
  exact (get_vector_db_info_failure world_down [] connection_refused
           world_down_fetch_fails).
Defined.

(** C8, as the specification states it, fails: a reply that is not 2xx
    is not always a failure for the client.  A 302 that [requests] does
    not follow and whose body decodes passes [raise_for_status], and
    [get_vector_db_info] returns that body, not an error value. *)
Lemma get_vector_db_info_redirect :
  http_send world_redirect [] GET (BASE_URL ++ "/vector-db/info") NoPayload
  = Ok (mkResponse 302 (mkExn RequestException "302") (Ok redirect_body))
  /\ is_2xx 302 = false
  /\ get_vector_db_info world_redirect []
     = (Ok (JObj [("detail", JStr "Found")]),
        [EvRequest GET (BASE_URL ++ "/vector-db/info") NoPayload])
  /\ ~ (exists message,
          fst (get_vector_db_info world_redirect [])
          = Ok (JObj [("status", JStr "error"); ("message", JStr message)])).
Proof.
  split; [reflexivity|]. split; [reflexivity|]. split; [reflexivity|].
  intros [message H]. vm_compute in H. discriminate.
Qed.

(** An error status is a failure of the same kind. *)
Example get_vector_db_info_not_found :
  let gone := mkExn RequestException "404 Client Error" in
  let w := mkWorld (fun _ _ _ _ => Ok (mkResponse 404 gone (Ok JNull)))
             (fun _ _ => Ok "") in
  get_vector_db_info w []
  = (Ok (error_dict "404 Client Error"), [info_request]).
Proof. reflexivity. Qed.

(** ** Upload *)

(** C7: with no file selected, [upload_file] returns
    [{"status": "error", "message": "No file selected"}] and performs no
    effect: no request is sent and no file is opened. *)
Theorem upload_file_no_file w tr :
  upload_file None w tr
  = (Ok (JObj [("status", JStr "error"); ("message", JStr "No file selected")]),
     tr).
Proof. reflexivity. Qed.

(** [upload_file] never raises either; a failed read is an upload error, a
    failed request a network error. *)
Lemma upload_file_total file w tr :
  exists v tr', upload_file file w tr = (Ok v, tr').
Proof.
  unfold upload_file, try_except.
  destruct file as [fobj|]; [|eexists _, _; reflexivity].
  unfold bind, open_rb, requests_request, lift, ret.
  destruct (file_read _ _ _) as [content|e].
  - destruct (http_send _ _ _ _ _) as [r|e].
    + destruct (raise_for_status r) as [|e].
      * destruct (json_body r) as [v|e]; [eexists _, _; reflexivity|].
        destruct (is_request_exception e); eexists _, _; reflexivity.
      * destruct (is_request_exception e); eexists _, _; reflexivity.
    + destruct (is_request_exception e); eexists _, _; reflexivity.
  - destruct (is_request_exception e); eexists _, _; reflexivity.
Qed.

(** [delete_file] has the same contract. *)
Lemma delete_file_total file_id w tr :
  exists v,
    delete_file file_id w tr
    = (Ok v,
       (tr ++ [EvRequest DELETE
                 (BASE_URL ++ "/vector-db/delete-document/" ++ file_id)
                 NoPayload])%list).
Proof.
  unfold delete_file, try_except.
  destruct (request_outcome w tr DELETE
              (BASE_URL ++ "/vector-db/delete-document/" ++ file_id)
              NoPayload) as [[e H]|[r H]]; step_request H.
  - eexists. reflexivity.
  - unfold lift. destruct (json_body r); eexists; reflexivity.
Qed.

(** ** The chat turn *)

Lemma api_history_fold history acc :
  fold_left
    (fun api_history pair =>
       let '(human, ai) := pair in
       ((api_history ++ [history_entry "user" human])
          ++ [history_entry "assistant" ai])%list)
    history acc
  = (acc ++ flat_map wire_pair history)%list.
Proof.
  revert acc. induction history as [|[human ai] rest IH]; intros acc; simpl.
  - now rewrite app_nil_r.
  - rewrite IH. now rewrite <- !app_assoc.
Qed.

Lemma api_history_flat history :
  api_history_of history = flat_map wire_pair history.
Proof. unfold api_history_of. now rewrite api_history_fold. Qed.

Lemma flat_wire_length history :
  List.length (flat_map wire_pair history) = 2 * List.length history.
Proof. induction history as [|p rest IH]; simpl; lia. Qed.

Lemma flat_wire_nth history i :
  nth_error (flat_map wire_pair history) (2 * i)
  = option_map (fun pair => history_entry "user" (fst pair))
      (nth_error history i)
  /\ nth_error (flat_map wire_pair history) (2 * i + 1)
     = option_map (fun pair => history_entry "assistant" (snd pair))
         (nth_error history i).
Proof.
  revert i. induction history as [|p rest IH]; intros i.
  - rewrite !nth_error_nil. now split.
  - destruct i as [|i].
    + now split.
    + replace (2 * S i) with (S (S (2 * i))) by lia.
      replace (S (S (2 * i)) + 1) with (S (S (2 * i + 1))) by lia.
      simpl. apply IH.
Qed.

(** A chat turn sends its one request whatever happens next. *)
Lemma chat_attempt_trace py_repr message history w tr :
  snd (chat_attempt py_repr message history w tr)
  = (tr ++ [chat_request message history])%list.
Proof.
  unfold chat_attempt, bind, requests_request, lift, ret. simpl.
  destruct (http_send _ _ _ _ _) as [r|e]; [|reflexivity].
  destruct (raise_for_status r); [|reflexivity].
  destruct (json_body r) as [res|e]; [|reflexivity].
  destruct (format_answer py_repr res); reflexivity.
Qed.

Lemma chat_with_documents_trace py_repr message history w tr :
  snd (chat_with_documents py_repr message history w tr)
  = (tr ++ [chat_request message history])%list.
Proof.
  unfold chat_with_documents, try_except.
  pose proof (chat_attempt_trace py_repr message history w tr) as H.
  destruct (chat_attempt py_repr message history w tr) as [[out|e] tr'];
    simpl in *; exact H.
Qed.

(** C2: for a transcript of N pairs, the history that the chat request
    carries has 2N entries; entry 2i is the role "user" with the user side
    of pair i, entry 2i+1 the role "assistant" with its assistant side. *)
Theorem api_history_round_trip py_repr message history w tr :
  let wire := api_history_of history in
  snd (chat_with_documents py_repr message history w tr)
  = (tr ++ [EvRequest POST (BASE_URL ++ "/chat")
              (JsonPayload (JObj [("query", JStr message);
                                  ("history", JArr wire)]))])%list
  /\ List.length wire = 2 * List.length history
  /\ forall i,
       nth_error wire (2 * i)
       = option_map
           (fun pair => JObj [("role", JStr "user"); ("content", fst pair)])
           (nth_error history i)
       /\ nth_error wire (2 * i + 1)
          = option_map
              (fun pair =>
                 JObj [("role", JStr "assistant"); ("content", snd pair)])
              (nth_error history i).
Proof.
  intros wire. split; [apply chat_with_documents_trace|].
  subst wire. rewrite api_history_flat. split.
  - apply flat_wire_length.
  - intros i. apply flat_wire_nth.
Qed.

Example api_history_two_pairs :
  api_history_of [(JStr "q1", JStr "a1"); (JStr "q2", JStr "a2")]
  = [history_entry "user" (JStr "q1"); history_entry "assistant" (JStr "a1");
     history_entry "user" (JStr "q2"); history_entry "assistant" (JStr "a2")].
Proof. reflexivity. Qed.

(** A failed request is one way for the body of the [try] to raise. *)
Lemma chat_attempt_request_fails py_repr message history w tr e :
  request_fails w tr POST chat_url
    (JsonPayload (JObj [("query", JStr message);
                        ("history", JArr (api_history_of history))])) e ->
  chat_attempt py_repr message history w tr
  = (Raise e, (tr ++ [chat_request message history])%list).
Proof.
  intros H. unfold chat_attempt. step_request H. reflexivity.
Qed.

(** C3: when the body of the [try] of a chat turn raises [e], the turn
    returns the input transcript followed by the one pair
    [(message, "Error: " + str(e))]: one pair longer, the message kept. *)
Theorem chat_with_documents_on_error py_repr message history w tr e tr' :
  chat_attempt py_repr message history w tr = (Raise e, tr') ->
  exists out,
    chat_with_documents py_repr message history w tr = (Ok out, tr')
    /\ out = (history ++ [(JStr message, JStr ("Error: " ++ str_exn e))])%list
    /\ List.length out = S (List.length history).
Proof.
  intros H. eexists. split; [|split].
  - unfold chat_with_documents. erewrite try_except_raise by exact H.
    reflexivity.
  - reflexivity.
  - rewrite length_app. simpl. lia.
Qed.

Lemma chat_with_documents_on_error_witness :
  chat_attempt repr_none "q2" [(JStr "q1", JStr "a1")] world_down []
  = (Raise connection_refused, [chat_request "q2" [(JStr "q1", JStr "a1")]])
  /\ exists out,
      chat_with_documents repr_none "q2" [(JStr "q1", JStr "a1")] world_down []
      = (Ok out, [chat_request "q2" [(JStr "q1", JStr "a1")]])
      /\ out = [(JStr "q1", JStr "a1");
                (JStr "q2", JStr "Error: Connection refused")]
      /\ List.length out = 2.
Proof.
  split; [reflexivity|].
  exact (chat_with_documents_on_error repr_none "q2" [(JStr "q1", JStr "a1")]
           world_down [] connection_refused
           [chat_request "q2" [(JStr "q1", JStr "a1")]] eq_refl).
Defined.

(** Whatever the back-end does, the turn comes back with one more pair,
    whose user side is the message. *)
Lemma chat_with_documents_keeps_message py_repr message history w tr :
  exists reply tr',
    chat_with_documents py_repr message history w tr
    = (Ok (history ++ [(JStr message, reply)])%list, tr').
Proof.
  unfold chat_with_documents, try_except, chat_attempt, bind,
    requests_request, lift, ret.
  destruct (http_send _ _ _ _ _) as [r|e]; [|eauto].
  destruct (raise_for_status r); [|eauto].
  destruct (json_body r) as [res|e]; [|eauto].
  destruct (format_answer py_repr res); eauto.
Qed.

(** A reply that lacks a key is an error of the turn like any other. *)
Example chat_with_documents_missing_key :
  let w := mkWorld (fun _ _ _ _ => reply_ok (JObj [("answer", JStr "A")]))
             (fun _ _ => Ok "") in
  fst (chat_with_documents repr_none "q" [] w [])
  = Ok [(JStr "q", JStr "Error: 'sources'")].
Proof. reflexivity. Qed.

Lemma comprehension_source_lines py_repr srcs names :
  Forall2 cites srcs names ->
  comprehension (source_line py_repr) srcs
  = Ok (map (fun f => "- " ++ f) names).
Proof.
  induction 1 as [|s f srcs names Hs _ IH]; simpl; [reflexivity|].
  unfold source_line at 1. rewrite Hs. simpl. rewrite IH. reflexivity.
Qed.

Lemma format_answer_no_sources py_repr res answer :
  py_getitem res "answer" = Ok answer ->
  py_getitem res "sources" = Ok (JArr []) ->
  format_answer py_repr res = Ok answer.
Proof. intros Ha Hs. unfold format_answer. rewrite Ha, Hs. reflexivity. Qed.

Lemma format_answer_some_sources py_repr res a srcs names :
  py_getitem res "answer" = Ok (JStr a) ->
  py_getitem res "sources" = Ok (JArr srcs) ->
  srcs <> [] ->
  Forall2 cites srcs names ->
  format_answer py_repr res = Ok (JStr (a ++ sources_block names)).
Proof.
  intros Ha Hs Hne Hc. unfold format_answer. rewrite Ha, Hs. simpl.
  destruct srcs as [|s srcs]; [contradiction|].
  rewrite (comprehension_source_lines py_repr _ _ Hc). reflexivity.
Qed.

Lemma chat_with_documents_reply py_repr message history w tr res answer :
  chat_reply w tr message history res ->
  format_answer py_repr res = Ok answer ->
  chat_with_documents py_repr message history w tr
  = (Ok (history ++ [(JStr message, answer)])%list,
     (tr ++ [chat_request message history])%list).
Proof.
  intros (r & Hr & Hb) Hf.
  unfold chat_with_documents. apply try_except_ok.
  unfold chat_attempt. step_request Hr.
  unfold bind, lift, ret. rewrite Hb, Hf. reflexivity.
Qed.

(** C1, as amended: when the reply to a chat turn has an empty list of
    sources, the pair appended to the transcript holds the raw answer
    unchanged; when it has one or more sources, the pair holds the raw
    answer followed by a blank line, the line "Sources:" and one line
    "- <filename>" per returned source, in the order of the reply -- a
    filename that several sources cite is listed once per source. *)
Theorem chat_answer_sources py_repr message history w tr res :
  chat_reply w tr message history res ->
  (forall answer,
      py_getitem res "answer" = Ok answer ->
      py_getitem res "sources" = Ok (JArr []) ->
      chat_with_documents py_repr message history w tr
      = (Ok (history ++ [(JStr message, answer)])%list,
         (tr ++ [chat_request message history])%list))
  /\ (forall a srcs names,
         py_getitem res "answer" = Ok (JStr a) ->
         py_getitem res "sources" = Ok (JArr srcs) ->
         srcs <> [] ->
         Forall2 cites srcs names ->
         chat_with_documents py_repr message history w tr
         = (Ok (history
                  ++ [(JStr message,
                       JStr (a ++ nl ++ nl ++ "Sources:" ++ nl
                               ++ String.concat nl
                                    (map (fun f => "- " ++ f)%string names))
                         %string)])%list,
            (tr ++ [chat_request message history])%list)).
Proof.
  intros Hr. split.
  - intros answer Ha Hs. apply (chat_with_documents_reply _ _ _ _ _ res); auto.
    now apply format_answer_no_sources.
  - intros a srcs names Ha Hs Hne Hc.
    apply (chat_with_documents_reply _ _ _ _ _ res); auto.
    now apply (format_answer_some_sources _ _ _ srcs).
Qed.

Lemma world_no_sources_reply :
  chat_reply world_no_sources [] "q" []
    (JObj [("answer", JStr "A"); ("sources", JArr [])]).
Proof. eexists. split; [split|]; reflexivity. Defined.

Lemma world_two_passages_reply :
  chat_reply world_two_passages [] "q" []
    (JObj [("answer", JStr "A");
           ("sources", JArr [source_record "a.pdf"; source_record "a.pdf"])]).
Proof. eexists. split; [split|]; reflexivity. Defined.

Lemma chat_answer_sources_witness :
  chat_with_documents repr_none "q" [] world_no_sources []
  = (Ok [(JStr "q", JStr "A")], [chat_request "q" []])
  /\ chat_with_documents repr_none "q" [] world_two_passages []
     = (Ok [(JStr "q",
             JStr ("A" ++ nl ++ nl ++ "Sources:" ++ nl
                       ++ "- a.pdf" ++ nl ++ "- a.pdf"))],
        [chat_request "q" []]).
Proof.
  split.
  - apply (proj1 (chat_answer_sources repr_none "q" [] world_no_sources [] _
                    world_no_sources_reply)); reflexivity.
  - apply (proj2 (chat_answer_sources repr_none "q" [] world_two_passages [] _
                    world_two_passages_reply)
             "A" [source_record "a.pdf"; source_record "a.pdf"]
             ["a.pdf"; "a.pdf"]);
      [reflexivity|reflexivity|discriminate|repeat constructor].
Defined.

(** C1, as the specification states it, fails: a back-end that cites
    [a.pdf] for two passages gets two lines for it, where a block of the
    distinct filenames has one. *)
Lemma chat_answer_repeats_filename :
  chat_reply world_two_passages [] "q" []
    (JObj [("answer", JStr "A");
           ("sources", JArr [source_record "a.pdf"; source_record "a.pdf"])])
  /\ Forall2 cites [source_record "a.pdf"; source_record "a.pdf"]
       ["a.pdf"; "a.pdf"]
  /\ fst (chat_with_documents repr_none "q" [] world_two_passages [])
     = Ok [(JStr "q",
            JStr ("A" ++ nl ++ nl ++ "Sources:" ++ nl
                      ++ "- a.pdf" ++ nl ++ "- a.pdf"))]
  /\ distinct_sources_block ["a.pdf"; "a.pdf"]
     = nl ++ nl ++ "Sources:" ++ nl ++ "- a.pdf"
  /\ fst (chat_with_documents repr_none "q" [] world_two_passages [])
     <> Ok [(JStr "q",
             JStr ("A" ++ distinct_sources_block ["a.pdf"; "a.pdf"]))].
Proof.
  split; [exact world_two_passages_reply|].
  split; [repeat constructor|]. split; [reflexivity|].
  split; [reflexivity|]. vm_compute. discriminate.
Qed.

(** ** The list of files *)

Lemma get_uploaded_files_info_fails w tr e :
  index_fetch_fails w tr e ->
  get_uploaded_files_info w tr
  = (Ok (JArr []),
     (tr ++ [info_request]
         ++ [EvPrint [JStr ("[DEBUG] Error fetching files: " ++ str_exn e)]])%list).
Proof.
  intros H. unfold get_uploaded_files_info.
  destruct H as [e H | r e H Hb].
  - erewrite try_except_raise by (step_request H; reflexivity).
    unfold bind, py_print, ret. now rewrite <- app_assoc.
  - erewrite try_except_raise
      by (step_request H; unfold bind, lift; rewrite Hb; reflexivity).
    unfold bind, py_print, ret. now rewrite <- app_assoc.
Qed.

Lemma get_uploaded_files_info_succeeds w tr r info files :
  request_succeeds w tr GET info_url NoPayload r ->
  json_body r = Ok info ->
  py_get info "files" (JArr []) = Ok files ->
  get_uploaded_files_info w tr
  = (Ok files,
     (tr ++ [info_request]
         ++ [EvPrint [JStr "[DEBUG] /vector-db/info response:"; info]])%list).
Proof.
  intros H Hb Hg. unfold get_uploaded_files_info.
  apply try_except_ok. step_request H.
  unfold bind, lift, py_print. rewrite Hb, Hg. now rewrite <- app_assoc.
Qed.

(** The fetch of the listing hands a value to its caller in every world. *)
Lemma get_uploaded_files_info_total w tr :
  exists files tr', get_uploaded_files_info w tr = (Ok files, tr').
Proof.
  destruct (request_outcome w tr GET info_url NoPayload) as [[e H]|[r H]].
  - eexists _, _. apply get_uploaded_files_info_fails.
    exact (index_request_fails _ _ e H).
  - destruct (json_body r) as [info|e] eqn:Hb.
    + unfold get_uploaded_files_info, try_except. step_request H.
      unfold bind, lift, py_print, ret. rewrite Hb.
      destruct (py_get info "files" (JArr [])); eexists _, _; reflexivity.
    + eexists _, _. apply get_uploaded_files_info_fails.
      exact (index_decode_fails _ _ r e H Hb).
Qed.

Lemma comprehension_filenames files names :
  Forall2 (fun f n => py_getitem f "filename" = Ok n) files names ->
  comprehension (fun f => py_getitem f "filename") files = Ok names.
Proof.
  induction 1 as [|f n files names Hf _ IH]; simpl; [reflexivity|].
  rewrite Hf. simpl. rewrite IH. reflexivity.
Qed.

(** C9: when the fetch of the index fails (the request fails or the reply
    does not decode), [get_filenames_list] returns the empty list, with the
    error only printed; when the fetch succeeds, it returns the filename of
    every record of ["files"], in the order of the snapshot. *)
Theorem get_filenames_list_spec w tr :
  (forall e,
      index_fetch_fails w tr e ->
      get_filenames_list w tr
      = (Ok [],
         (tr ++ [info_request]
             ++ [EvPrint [JStr ("[DEBUG] Error fetching files: "
                                  ++ str_exn e)]])%list))
  /\ (forall r info files names,
         request_succeeds w tr GET info_url NoPayload r ->
         json_body r = Ok info ->
         py_get info "files" (JArr []) = Ok (JArr files) ->
         Forall2 (fun f n => py_getitem f "filename" = Ok n) files names ->
         get_filenames_list w tr
         = (Ok names,
            (tr ++ [info_request]
                ++ [EvPrint [JStr "[DEBUG] /vector-db/info response:";
                             info]])%list)).
Proof.
  split.
  - intros e H. unfold get_filenames_list.
    erewrite bind_ok by (apply get_uploaded_files_info_fails; exact H).
    reflexivity.
  - intros r info files names H Hb Hg Hn. unfold get_filenames_list.
    erewrite bind_ok
      by (eapply get_uploaded_files_info_succeeds; eassumption).
    unfold bind, lift. simpl.
    rewrite (comprehension_filenames _ _ Hn). reflexivity.
Qed.

Lemma get_filenames_list_spec_witness :
  get_filenames_list world_down []
  = (Ok [],
     [info_request;
      EvPrint [JStr "[DEBUG] Error fetching files: Connection refused"]])
  /\ get_filenames_list (world_listing colliding_files) []
     = (Ok [JStr "b.pdf"; JStr "a.pdf"; JStr "a.pdf"],
        [info_request;
         EvPrint [JStr "[DEBUG] /vector-db/info response:";
                  JObj [("files", JArr colliding_files)]]]).
Proof.
  split.
  - exact (proj1 (get_filenames_list_spec world_down []) connection_refused
             world_down_fetch_fails).
  - apply (proj2 (get_filenames_list_spec (world_listing colliding_files) [])
             (mkResponse 200 (mkExn RequestException "")
                (Ok (JObj [("files", JArr colliding_files)])))
             (JObj [("files", JArr colliding_files)]) colliding_files
             [JStr "b.pdf"; JStr "a.pdf"; JStr "a.pdf"]);
      [split; reflexivity|reflexivity|reflexivity|repeat constructor].
Defined.

(** ** Deletion *)

(** C6: with an empty selection, [delete_files_from_db] returns
    "No files selected." and performs no effect: neither the index fetch
    nor a delete request is sent. *)
Theorem delete_files_from_db_nothing_selected py_repr w tr :
  delete_files_from_db py_repr [] w tr = (Ok "No files selected.", tr).
Proof. reflexivity. Qed.

Lemma string_append_assoc (a b c : string) : (a ++ b) ++ c = a ++ b ++ c.
Proof. induction a as [|ch a IH]; simpl; [reflexivity|now rewrite IH]. Qed.

(** The text the code builds is the summary of the specification. *)
Lemma delete_summary_spec deleted errors :
  delete_summary deleted errors = spec_summary deleted errors.
Proof.
  unfold delete_summary, spec_summary.
  destruct deleted as [|d ds], errors as [|e es]; try reflexivity.
  cbn [append str_or String.eqb]. rewrite string_append_assoc.
  reflexivity.
Qed.

Lemma find_file_id_total files fname :
  Forall has_record_keys files -> exists v, find_file_id files fname = Ok v.
Proof.
  induction 1 as [|f files [[v Hv] [i Hi]] _ IH]; simpl.
  - now exists JNull.
  - rewrite Hv. simpl. destruct (py_eq_str v fname); [now exists i|exact IH].
Qed.

Lemma find_file_id_no_match files fname :
  Forall (other_file fname) files -> find_file_id files fname = Ok JNull.
Proof.
  induction 1 as [|g files (v & Hv & Hne) _ IH]; simpl; [reflexivity|].
  rewrite Hv. simpl. now rewrite Hne.
Qed.

Lemma find_file_id_first_match before f after fname file_id :
  Forall (other_file fname) before ->
  py_getitem f "filename" = Ok (JStr fname) ->
  py_getitem f "file_id" = Ok file_id ->
  find_file_id (before ++ f :: after) fname = Ok file_id.
Proof.
  intros Hb Hf Hi. induction Hb as [|g before (v & Hv & Hne) _ IH]; simpl.
  - rewrite Hf. simpl. now rewrite String.eqb_refl.
  - rewrite Hv. simpl. now rewrite Hne.
Qed.

Section DeleteOne.

Variable py_repr : json -> string.
Variables (w : World) (files : list json) (fname : string) (file_id : json).
Hypothesis resolved : find_file_id files fname = Ok file_id.

Lemma delete_one_not_found deleted errors tr :
  truthy file_id = false ->
  delete_one py_repr (JArr files) fname (deleted, errors) w tr
  = (Ok (deleted, (errors ++ [error_entry fname "Not found"])%list), tr).
Proof.
  intros Hf. unfold delete_one, bind, lift. simpl.
  rewrite resolved, Hf. reflexivity.
Qed.

Lemma delete_one_deleted deleted errors tr r :
  truthy file_id = true ->
  request_succeeds w tr DELETE
    (BASE_URL ++ "/vector-db/delete-document/" ++ py_str py_repr file_id)
    NoPayload r ->
  delete_one py_repr (JArr files) fname (deleted, errors) w tr
  = (Ok ((deleted ++ [fname])%list, errors),
     (tr ++ [delete_request py_repr file_id])%list).
Proof.
  intros Ht Hr. unfold delete_one, bind at 1 2, lift. simpl.
  rewrite resolved, Ht. apply try_except_ok.
  step_request Hr. reflexivity.
Qed.

Lemma delete_one_failed deleted errors tr e :
  truthy file_id = true ->
  request_fails w tr DELETE
    (BASE_URL ++ "/vector-db/delete-document/" ++ py_str py_repr file_id)
    NoPayload e ->
  delete_one py_repr (JArr files) fname (deleted, errors) w tr
  = (Ok (deleted, (errors ++ [error_entry fname (str_exn e)])%list),
     (tr ++ [delete_request py_repr file_id])%list).
Proof.
  intros Ht Hr. unfold delete_one, bind at 1 2, lift. simpl.
  rewrite resolved, Ht.
  erewrite try_except_raise by (step_request Hr; reflexivity).
  reflexivity.
Qed.

(** One turn of the loop adds the filename to one of the two lists and
    sends at most the one delete request. *)
Lemma delete_one_step deleted errors tr :
  exists d e,
    delete_one py_repr (JArr files) fname (deleted, errors) w tr
    = (Ok ((deleted ++ d)%list, (errors ++ e)%list),
       (tr ++ delete_requests py_repr file_id)%list)
    /\ tally [fname] d e.
Proof.
  unfold delete_requests. destruct (truthy file_id) eqn:Ht.
  - destruct (request_outcome w tr DELETE
                (BASE_URL ++ "/vector-db/delete-document/"
                   ++ py_str py_repr file_id) NoPayload) as [[e H]|[r H]].
    + exists [], [error_entry fname (str_exn e)]. split.
      * rewrite app_nil_r. now apply delete_one_failed.
      * apply tally_failed, tally_done.
    + exists [fname], []. split.
      * rewrite app_nil_r. now apply (delete_one_deleted _ _ _ r).
      * apply tally_deleted, tally_done.
  - exists [], [error_entry fname "Not found"]. split.
    + rewrite !app_nil_r. now apply delete_one_not_found.
    + apply tally_failed, tally_done.
Qed.

End DeleteOne.

(** The loop over the selection, on a listing whose records have their
    keys: it ends, every filename is tallied, and the requests sent are
    the delete requests of the resolved identifiers, in order. *)
Lemma delete_loop_tally py_repr w files filenames :
  Forall has_record_keys files ->
  forall deleted errors tr,
  exists d e,
    delete_loop py_repr (JArr files) filenames (deleted, errors) w tr
    = (Ok ((deleted ++ d)%list, (errors ++ e)%list),
       (tr ++ flat_map (requests_for py_repr files) filenames)%list)
    /\ tally filenames d e.
Proof.
  intros Hk. induction filenames as [|fname rest IH]; intros deleted errors tr.
  - exists [], []. simpl. rewrite !app_nil_r. split; [reflexivity|constructor].
  - destruct (find_file_id_total files fname Hk) as [file_id Hid].
    destruct (delete_one_step py_repr w files fname file_id Hid deleted errors tr)
      as (d1 & e1 & Hstep & Ht1).
    destruct (IH (deleted ++ d1)%list (errors ++ e1)%list
                (tr ++ delete_requests py_repr file_id)%list)
      as (d & e & Hloop & Ht).
    exists (d1 ++ d)%list, (e1 ++ e)%list. split.
    + cbn [delete_loop flat_map]. erewrite bind_ok by exact Hstep.
      rewrite Hloop. unfold requests_for at 2. rewrite Hid.
      now rewrite !app_assoc.
    + inversion Ht1 as [|? ? ? ? H0|? ? ? ? ? H0]; subst;
        inversion H0; subst; simpl; now constructor.
Qed.

Lemma delete_files_from_db_run py_repr w tr filenames files tr1 out tr' :
  filenames <> [] ->
  get_uploaded_files_info w tr = (Ok files, tr1) ->
  delete_loop py_repr files filenames ([], []) w tr1 = (Ok out, tr') ->
  delete_files_from_db py_repr filenames w tr
  = (Ok (delete_summary (fst out) (snd out)), tr').
Proof.
  intros Hne Hfetch Hloop. destruct filenames as [|fname rest]; [contradiction|].
  unfold delete_files_from_db.
  erewrite bind_ok by exact Hfetch.
  erewrite bind_ok by exact Hloop.
  destruct out as [deleted errors]. reflexivity.
Qed.

Lemma delete_files_from_db_summary py_repr w tr filenames files tr1 :
  filenames <> [] ->
  get_uploaded_files_info w tr = (Ok (JArr files), tr1) ->
  Forall has_record_keys files ->
  exists deleted errors,
    delete_files_from_db py_repr filenames w tr
    = (Ok (spec_summary deleted errors),
       (tr1 ++ flat_map (requests_for py_repr files) filenames)%list)
    /\ tally filenames deleted errors.
Proof.
  intros Hne Hfetch Hk.
  destruct (delete_loop_tally py_repr w files filenames Hk [] [] tr1)
    as (d & e & Hloop & Ht).
  exists d, e. split; [|exact Ht].
  erewrite delete_files_from_db_run by eassumption.
  simpl. now rewrite delete_summary_spec.
Qed.

(** A non-empty selection never yields the text for two empty lists. *)
Lemma tally_not_empty filenames deleted errors :
  tally filenames deleted errors ->
  filenames <> [] -> deleted <> [] \/ errors <> [].
Proof.
  intros Ht Hne. destruct Ht; [contradiction|left|right]; discriminate.
Qed.











(** The two lists follow the world: where the back-end refuses the
    deletion, the same selection on the same listing has nothing in
    [deleted]. *)
Example deletion_run_refused :
  deletion_run repr_none (world_refusing [document_record "id1" "a.pdf"])
    [document_record "id1" "a.pdf"] ["a.pdf"; "missing.pdf"] []
    []
    ["a.pdf: 404 Client Error: Not Found"; "missing.pdf: Not found"]
    [EvRequest DELETE (BASE_URL ++ "/vector-db/delete-document/id1") NoPayload]
  /\ fst (delete_files_from_db repr_none ["a.pdf"; "missing.pdf"]
            (world_refusing [document_record "id1" "a.pdf"]) [])
     = Ok "Errors: a.pdf: 404 Client Error: Not Found; missing.pdf: Not found".
Proof.
  split; [|reflexivity].
  apply (run_failed repr_none _ _ "a.pdf" ["missing.pdf"] [] (JStr "id1")
           not_found_error [] ["missing.pdf: Not found"]);
    [reflexivity|reflexivity| |].
  - exact (status_fails (world_refusing [document_record "id1" "a.pdf"]) []
             DELETE _ NoPayload
             (mkResponse 404 not_found_error (Ok JNull)) eq_refl eq_refl).
  - apply (run_not_found repr_none _ _ "missing.pdf" [] _ JNull [] []);
      [reflexivity|reflexivity|constructor].
Qed.

Example delete_files_from_db_one_missing :
  fst (delete_files_from_db repr_none ["a.pdf"; "missing.pdf"]
         world_one_file [])
  = Ok "Deleted: a.pdf. Errors: missing.pdf: Not found".
Proof. reflexivity. Qed.

(** C5: when several records of the listing have the selected filename,
    the loop resolves it to the ["file_id"] of the first of them, and the
    turn for that filename sends no request but the delete request for
    that identifier (none at all when the identifier is falsy); so does
    the whole call for a selection of that one filename, after its fetch
    of the listing. *)
Theorem delete_files_from_db_first_match
    py_repr w tr0 tr fname before f after file_id :
  Forall (other_file fname) before ->
  py_getitem f "filename" = Ok (JStr fname) ->
  py_getitem f "file_id" = Ok file_id ->
  find_file_id (before ++ f :: after) fname = Ok file_id
  /\ (forall acc,
         snd (delete_one py_repr (JArr (before ++ f :: after)) fname acc w tr)
         = (tr ++ (if truthy file_id
                   then [EvRequest DELETE
                           (BASE_URL ++ "/vector-db/delete-document/"
                              ++ py_str py_repr file_id) NoPayload]
                   else []))%list)
  /\ (get_uploaded_files_info w tr0 = (Ok (JArr (before ++ f :: after)), tr) ->
      snd (delete_files_from_db py_repr [fname] w tr0)
      = (tr ++ (if truthy file_id
                then [EvRequest DELETE
                        (BASE_URL ++ "/vector-db/delete-document/"
                           ++ py_str py_repr file_id) NoPayload]
                else []))%list).
Proof.
  intros Hb Hf Hi.
  pose proof (find_file_id_first_match before f after fname file_id Hb Hf Hi)
    as Hfind.
  split; [exact Hfind|]. split.
  - intros [deleted errors].
    destruct (delete_one_step py_repr w _ fname file_id Hfind deleted errors tr)
      as (d & e & Hstep & _).
    rewrite Hstep. reflexivity.
  - intros Hfetch.
    destruct (delete_one_step py_repr w _ fname file_id Hfind [] [] tr)
      as (d & e & Hstep & _).
    erewrite delete_files_from_db_run;
      [|discriminate|exact Hfetch
       |cbn [delete_loop]; erewrite bind_ok by exact Hstep; reflexivity].
    reflexivity.
Qed.

Lemma b_pdf_is_other : Forall (other_file "a.pdf") [document_record "id0" "b.pdf"].
Proof. repeat constructor. exists (JStr "b.pdf"). split; reflexivity. Defined.

Lemma delete_files_from_db_first_match_witness :
  find_file_id colliding_files "a.pdf" = Ok (JStr "id1")
  /\ snd (delete_files_from_db repr_none ["a.pdf"]
            (world_listing colliding_files) [])
     = [info_request;
        EvPrint [JStr "[DEBUG] /vector-db/info response:";
                 JObj [("files", JArr colliding_files)]];
        EvRequest DELETE (BASE_URL ++ "/vector-db/delete-document/id1")
          NoPayload].
Proof.
  pose proof (delete_files_from_db_first_match repr_none
                (world_listing colliding_files) []
                [info_request;
                 EvPrint [JStr "[DEBUG] /vector-db/info response:";
                          JObj [("files", JArr colliding_files)]]]
                "a.pdf" [document_record "id0" "b.pdf"]
                (document_record "id1" "a.pdf")
                [document_record "id2" "a.pdf"] (JStr "id1")
                b_pdf_is_other eq_refl eq_refl) as (H1 & _ & H3).
  split; [exact H1|]. exact (H3 eq_refl).
Defined.

(** C10: when the first record with the selected filename has a falsy
    ["file_id"] (an empty string, [None], 0, ...), the turn for that
    filename sends no request and adds "fname: Not found" to the errors,
    as it does on a listing where no record has the filename; a call for
    that one filename returns "Errors: fname: Not found" with nothing sent
    after the fetch of the listing. *)
Theorem delete_files_from_db_falsy_file_id
    py_repr w tr0 tr fname before f after file_id :
  Forall (other_file fname) before ->
  py_getitem f "filename" = Ok (JStr fname) ->
  py_getitem f "file_id" = Ok file_id ->
  truthy file_id = false ->
  (forall deleted errors,
      delete_one py_repr (JArr (before ++ f :: after)) fname (deleted, errors)
        w tr
      = (Ok (deleted, (errors ++ [(fname ++ ": Not found")%string])%list), tr))
  /\ (forall others acc,
         Forall (other_file fname) others ->
         delete_one py_repr (JArr (before ++ f :: after)) fname acc w tr
         = delete_one py_repr (JArr others) fname acc w tr)
  /\ (get_uploaded_files_info w tr0 = (Ok (JArr (before ++ f :: after)), tr) ->
      delete_files_from_db py_repr [fname] w tr0
      = (Ok ("Errors: " ++ fname ++ ": Not found"), tr)).
Proof.
  intros Hb Hf Hi Ht.
  assert (H1 : forall deleted errors,
             delete_one py_repr (JArr (before ++ f :: after)) fname
               (deleted, errors) w tr
             = (Ok (deleted, (errors ++ [error_entry fname "Not found"])%list),
                tr)).
  { intros deleted errors.
    apply (delete_one_not_found py_repr w _ fname file_id); [|exact Ht].
    now apply find_file_id_first_match. }
  split; [exact H1|]. split.
  - intros others [deleted errors] Ho. rewrite H1. symmetry.
    apply (delete_one_not_found py_repr w _ fname JNull); [|reflexivity].
    now apply find_file_id_no_match.
  - intros Hfetch.
    erewrite delete_files_from_db_run;
      [|discriminate|exact Hfetch
       |cbn [delete_loop]; erewrite bind_ok by apply H1; reflexivity].
    reflexivity.
Qed.

Lemma delete_files_from_db_falsy_file_id_witness :
  find_file_id blank_id_files "a.pdf" = Ok (JStr "")
  /\ delete_files_from_db repr_none ["a.pdf"] (world_listing blank_id_files) []
     = (Ok "Errors: a.pdf: Not found",
        [info_request;
         EvPrint [JStr "[DEBUG] /vector-db/info response:";
                  JObj [("files", JArr blank_id_files)]]]).
Proof.
  split; [reflexivity|].
  exact (proj2 (proj2 (delete_files_from_db_falsy_file_id repr_none
                         (world_listing blank_id_files) []
                         [info_request;
                          EvPrint [JStr "[DEBUG] /vector-db/info response:";
                                   JObj [("files", JArr blank_id_files)]]]
                         "a.pdf" [document_record "id0" "b.pdf"]
                         (document_record "" "a.pdf")
                         [document_record "id2" "a.pdf"] (JStr "")
                         b_pdf_is_other eq_refl eq_refl eq_refl))
           eq_refl).
Defined.

(** A [null] identifier is treated the same way. *)
Example delete_files_from_db_null_file_id :
  let files := [JObj [("file_id", JNull); ("filename", JStr "a.pdf")]] in
  delete_files_from_db repr_none ["a.pdf"] (world_listing files) []
  = (Ok "Errors: a.pdf: Not found",
     [info_request;
      EvPrint [JStr "[DEBUG] /vector-db/info response:";
               JObj [("files", JArr files)]]]).
Proof. reflexivity. Qed.

(** The hypothesis on the listing matters: the loop is outside any [try],
    and a listing that is not iterable makes the call raise. *)
Example delete_files_from_db_malformed_listing :
  let w := mkWorld (fun _ _ _ _ => reply_ok (JObj [("files", JNull)]))
             (fun _ _ => Ok "") in
  fst (delete_files_from_db repr_none ["a.pdf"] w [])
  = Raise (mkExn TypeError "'NoneType' object is not iterable").
Proof. reflexivity. Qed.

(** * The rest of the client *)

(** ** Upload with a file *)

Lemma call_outcome w tr m url p :
  (exists e, call_fails w tr m url p e)
  \/ (exists v, call_returns w tr m url p v).
Proof.
  destruct (request_outcome w tr m url p) as [[e H]|[r H]].
  - left. exists e. now apply call_request_fails.
  - destruct (json_body r) as [v|e] eqn:Hb.
    + right. exists v, r. now split.
    + left. exists e. now apply (call_decode_fails _ _ _ _ _ r).
Qed.

(** The shape shared by [get_vector_db_info], [delete_file] and the
    upload: request, status check, decode. *)
Lemma call_body_fails w tr m url p e :
  call_fails w tr m url p e ->
  bind (requests_request m url p)
    (fun response => bind (lift (raise_for_status response))
                       (fun _ => lift (json_body response))) w tr
  = (Raise e, (tr ++ [EvRequest m url p])%list).
Proof.
  intros [e' H | r e' H Hb]; step_request H; [reflexivity|].
  unfold lift. rewrite Hb. reflexivity.
Qed.

Lemma call_body_returns w tr m url p v :
  call_returns w tr m url p v ->
  bind (requests_request m url p)
    (fun response => bind (lift (raise_for_status response))
                       (fun _ => lift (json_body response))) w tr
  = (Ok v, (tr ++ [EvRequest m url p])%list).
Proof.
  intros (r & H & Hb). step_request H. unfold lift. rewrite Hb. reflexivity.
Qed.

(** X1: a file that cannot be opened or read makes [upload_file] return an
    error value after the open alone: no request is sent. *)
Theorem upload_file_read_fails file w tr e :
  file_read w tr (name file) = Raise e ->
  upload_file (Some file) w tr
  = (Ok (JObj [("status", JStr "error");
               ("message", JStr (upload_error_prefix e ++ str_exn e))]),
     (tr ++ [EvOpen (name file)])%list).
Proof.
  intros H. unfold upload_file, try_except, bind, open_rb. rewrite H.
  unfold upload_error_prefix. destruct (is_request_exception e); reflexivity.
Qed.

Lemma upload_file_read_fails_witness :
  file_read world_unreadable [] "/tmp/gradio/report.pdf" = Raise permission_denied
  /\ upload_file (Some (mkFile "/tmp/gradio/report.pdf")) world_unreadable []
     = (Ok (JObj [("status", JStr "error");
                  ("message", JStr "Upload error: Permission denied")]),
        [EvOpen "/tmp/gradio/report.pdf"]).
Proof.
  split; [reflexivity|].
  exact (upload_file_read_fails (mkFile "/tmp/gradio/report.pdf")
           world_unreadable [] permission_denied eq_refl).
Defined.

Lemma upload_file_steps file w tr content :
  file_read w tr (name file) = Ok content ->
  upload_file (Some file) w tr
  = try_except
      (bind (requests_request POST upload_url
               (upload_payload (name file) content))
         (fun response => bind (lift (raise_for_status response))
                            (fun _ => lift (json_body response))))
      (fun e => ret (error_dict (upload_error_prefix e ++ str_exn e)))
      w (tr ++ [EvOpen (name file)])%list.
Proof.
  intros H. unfold upload_file, try_except, bind at 1, open_rb. rewrite H.
  unfold upload_error_prefix, upload_url, upload_payload, bind, lift, ret,
    requests_request.
  destruct (http_send _ _ _ _ _) as [r|e].
  - destruct (raise_for_status r) as [|e].
    + destruct (json_body r) as [v|e]; [reflexivity|].
      destruct (is_request_exception e); reflexivity.
    + destruct (is_request_exception e); reflexivity.
  - destruct (is_request_exception e); reflexivity.
Qed.

(** X2: when the file is read and the call to the back-end fails,
    [upload_file] returns an error value whose message starts
    "Network error: " for an exception of [requests] and "Upload error: "
    for any other. *)
Theorem upload_file_call_fails file w tr content e :
  file_read w tr (name file) = Ok content ->
  call_fails w (tr ++ [EvOpen (name file)])%list POST
    (BASE_URL ++ "/vector-db/add-document")
    (upload_payload (name file) content) e ->
  upload_file (Some file) w tr
  = (Ok (JObj [("status", JStr "error");
               ("message",
                JStr ((if is_request_exception e
                       then "Network error: " else "Upload error: ")
                        ++ str_exn e))]),
     (tr ++ [EvOpen (name file)]
         ++ [EvRequest POST (BASE_URL ++ "/vector-db/add-document")
               (upload_payload (name file) content)])%list).
Proof.
  intros Hr Hc. rewrite (upload_file_steps _ _ _ _ Hr).
  erewrite try_except_raise by (apply call_body_fails; exact Hc).
  unfold ret, upload_error_prefix. now rewrite <- app_assoc.
Qed.

Lemma world_down_upload_fails :
  call_fails world_down [EvOpen "/tmp/gradio/report.pdf"] POST
    (BASE_URL ++ "/vector-db/add-document")
    (upload_payload "/tmp/gradio/report.pdf" "") connection_refused.
Proof. apply call_request_fails, transport_fails. reflexivity. Defined.

Lemma upload_file_call_fails_witness :
  upload_file (Some (mkFile "/tmp/gradio/report.pdf")) world_down []
  = (Ok (JObj [("status", JStr "error");
               ("message", JStr "Network error: Connection refused")]),
     [EvOpen "/tmp/gradio/report.pdf";
      EvRequest POST (BASE_URL ++ "/vector-db/add-document")
        (FilesPayload "file" "report.pdf" "" "application/octet-stream")]).
Proof.
  exact (upload_file_call_fails (mkFile "/tmp/gradio/report.pdf") world_down
           [] "" connection_refused eq_refl world_down_upload_fails).
Defined.

(** X3: when the file is read and the back-end replies, [upload_file]
    returns the decoded body as it is, whatever it says. *)
Theorem upload_file_returns_body file w tr content v :
  file_read w tr (name file) = Ok content ->
  call_returns w (tr ++ [EvOpen (name file)])%list POST
    (BASE_URL ++ "/vector-db/add-document")
    (upload_payload (name file) content) v ->
  upload_file (Some file) w tr
  = (Ok v,
     (tr ++ [EvOpen (name file)]
         ++ [EvRequest POST (BASE_URL ++ "/vector-db/add-document")
               (upload_payload (name file) content)])%list).
Proof.
  intros Hr Hc. rewrite (upload_file_steps _ _ _ _ Hr).
  erewrite try_except_ok by (apply call_body_returns; exact Hc).
  now rewrite <- app_assoc.
Qed.

Lemma upload_file_returns_body_witness :
  upload_file (Some (mkFile "/tmp/gradio/report.pdf"))
    (world_body (error_dict "Unsupported file type")) []
  = (Ok (error_dict "Unsupported file type"),
     [EvOpen "/tmp/gradio/report.pdf";
      EvRequest POST (BASE_URL ++ "/vector-db/add-document")
        (FilesPayload "file" "report.pdf" "data" "application/octet-stream")]).
Proof.
  apply (upload_file_returns_body (mkFile "/tmp/gradio/report.pdf")
           (world_body (error_dict "Unsupported file type")) [] "data");
    [reflexivity|].
  eexists. split; [split|]; reflexivity.
Defined.

Lemma basename_from_no_slash acc s :
  has_slash s = false -> basename_from acc s = acc.
Proof.
  revert acc. induction s as [|c s IH]; intros acc H; simpl in *.
  - reflexivity.
  - apply orb_false_elim in H. destruct H as [Hc Hs]. rewrite Hc. now apply IH.
Qed.

Lemma basename_from_last acc dir fname :
  has_slash fname = false ->
  basename_from acc (dir ++ "/" ++ fname) = fname.
Proof.
  intros H. revert acc. induction dir as [|c dir IH]; intros acc; simpl.
  - now apply basename_from_no_slash.
  - destruct (Ascii.eqb c "/"); apply IH.
Qed.

Lemma upload_file_trace file w tr content :
  file_read w tr (name file) = Ok content ->
  snd (upload_file (Some file) w tr)
  = (tr ++ [EvOpen (name file);
            EvRequest POST upload_url (upload_payload (name file) content)])%list.
Proof.
  intros Hr. rewrite (upload_file_steps _ _ _ _ Hr).
  destruct (call_outcome w (tr ++ [EvOpen (name file)])%list POST upload_url
              (upload_payload (name file) content)) as [[e H]|[v H]].
  - erewrite try_except_raise by (apply call_body_fails; exact H).
    simpl. now rewrite <- app_assoc.
  - erewrite try_except_ok by (apply call_body_returns; exact H).
    simpl. now rewrite <- app_assoc.
Qed.

(** X4: the upload opens the temporary path and sends one request, whose
    multipart field "file" carries the content under the last component
    of the path: the directory of the temporary copy is not sent. *)
Theorem upload_file_sends_last_component dir fname w tr content :
  has_slash fname = false ->
  file_read w tr (dir ++ "/" ++ fname) = Ok content ->
  snd (upload_file (Some (mkFile (dir ++ "/" ++ fname))) w tr)
  = (tr ++ [EvOpen (dir ++ "/" ++ fname);
            EvRequest POST (BASE_URL ++ "/vector-db/add-document")
              (FilesPayload "file" fname content
                 "application/octet-stream")])%list.
Proof.
  intros Hs Hr.
  rewrite (upload_file_trace (mkFile (dir ++ "/" ++ fname)) w tr content Hr).
  unfold upload_payload, basename. cbn [name].
  now rewrite (basename_from_last _ dir fname Hs).
Qed.

Lemma upload_file_sends_last_component_witness :
  snd (upload_file (Some (mkFile "/tmp/gradio/report.pdf"))
         (world_body JNull) [])
  = [EvOpen "/tmp/gradio/report.pdf";
     EvRequest POST (BASE_URL ++ "/vector-db/add-document")
       (FilesPayload "file" "report.pdf" "data" "application/octet-stream")].
Proof.
  exact (upload_file_sends_last_component "/tmp/gradio" "report.pdf"
           (world_body JNull) [] "data" eq_refl eq_refl).
Defined.

(** X5: [upload_file] hands a value to its caller in every world, and sends
    at most one request. *)
Theorem upload_file_never_raises file w tr :
  exists v tr',
    upload_file file w tr = (Ok v, tr')
    /\ (List.length (filter is_request tr')
        <= S (List.length (filter is_request tr)))%nat.
Proof.
  destruct (upload_file_total file w tr) as (v & tr' & H).
  exists v, tr'. split; [exact H|].
  replace tr' with (snd (upload_file file w tr)) by now rewrite H.
  destruct file as [file|]; [|simpl; lia].
  destruct (file_read w tr (name file)) as [content|e] eqn:Hr.
  - rewrite (upload_file_trace _ _ _ _ Hr).
    rewrite !filter_app, !length_app. simpl. lia.
  - unfold upload_file, try_except, bind, open_rb. rewrite Hr.
    destruct (is_request_exception e); simpl;
      rewrite !filter_app, !length_app; simpl; lia.
Qed.

(** ** Deleting by identifier, and the information panel *)

Lemma delete_file_steps file_id w tr :
  delete_file file_id w tr
  = try_except
      (bind (requests_request DELETE (delete_url file_id) NoPayload)
         (fun response => bind (lift (raise_for_status response))
                            (fun _ => lift (json_body response))))
      (fun e => ret (error_dict (str_exn e))) w tr.
Proof. reflexivity. Qed.

(** X6: [delete_file] sends one DELETE for the identifier; when the call
    fails it returns [{"status": "error", "message": str(e)}], and when
    the back-end replies it returns the decoded body as it is. *)
Theorem delete_file_contract file_id w tr :
  (forall e,
      call_fails w tr DELETE
        (BASE_URL ++ "/vector-db/delete-document/" ++ file_id) NoPayload e ->
      delete_file file_id w tr
      = (Ok (JObj [("status", JStr "error"); ("message", JStr (str_exn e))]),
         (tr ++ [EvRequest DELETE
                   (BASE_URL ++ "/vector-db/delete-document/" ++ file_id)
                   NoPayload])%list))
  /\ (forall v,
         call_returns w tr DELETE
           (BASE_URL ++ "/vector-db/delete-document/" ++ file_id) NoPayload v ->
         delete_file file_id w tr
         = (Ok v,
            (tr ++ [EvRequest DELETE
                      (BASE_URL ++ "/vector-db/delete-document/" ++ file_id)
                      NoPayload])%list)).
Proof.
  split.
  - intros e H. rewrite delete_file_steps.
    erewrite try_except_raise by (apply call_body_fails; exact H).
    reflexivity.
  - intros v H. rewrite delete_file_steps.
    apply try_except_ok. apply call_body_returns. exact H.
Qed.

Lemma delete_file_contract_witness :
  delete_file "id1" (world_refusing []) []
  = (Ok (JObj [("status", JStr "error");
               ("message", JStr "404 Client Error: Not Found")]),
     [EvRequest DELETE (BASE_URL ++ "/vector-db/delete-document/id1")
        NoPayload])
  /\ delete_file "id1" (world_body (JObj [("status", JStr "ok")])) []
     = (Ok (JObj [("status", JStr "ok")]),
        [EvRequest DELETE (BASE_URL ++ "/vector-db/delete-document/id1")
           NoPayload]).
Proof.
  split.
  - apply (proj1 (delete_file_contract "id1" (world_refusing []) [])
             not_found_error).
    apply call_request_fails.
    exact (status_fails (world_refusing []) [] DELETE _ NoPayload
             (mkResponse 404 not_found_error (Ok JNull)) eq_refl eq_refl).
  - apply (proj2 (delete_file_contract "id1"
                    (world_body (JObj [("status", JStr "ok")])) [])).
    eexists. split; [split|]; reflexivity.
Defined.

Lemma call_fails_index w tr e :
  call_fails w tr GET info_url NoPayload e -> index_fetch_fails w tr e.
Proof.
  intros [e' H | r e' H Hb].
  - now apply index_request_fails.
  - now apply (index_decode_fails _ _ r).
Qed.

Lemma get_uploaded_files_info_attribute_error w tr info :
  call_returns w tr GET info_url NoPayload info ->
  is_object info = false ->
  get_uploaded_files_info w tr
  = (Ok (JArr []),
     (tr ++ [info_request;
             EvPrint [JStr "[DEBUG] /vector-db/info response:"; info];
             EvPrint [JStr ("[DEBUG] Error fetching files: '"
                              ++ py_type_name info
                              ++ "' object has no attribute 'get'")]])%list).
Proof.
  intros (r & H & Hb) Ho. unfold get_uploaded_files_info.
  erewrite try_except_raise.
  2:{ step_request H. unfold bind, lift, py_print. rewrite Hb.
      destruct info; try discriminate; reflexivity. }
  unfold bind, py_print, ret. simpl. now rewrite <- !app_assoc.
Qed.

(** X7: the listing that the checkboxes and the deletion work on is the
    ["files"] entry of what the information panel shows for the same
    reply, and the empty list when the panel shows an error, a body
    without that entry or a body that is not an object. *)
Theorem get_uploaded_files_info_agrees w tr :
  exists info,
    fst (get_vector_db_info w tr) = Ok info
    /\ fst (get_uploaded_files_info w tr) = Ok (files_of_info info).
Proof.
  destruct (call_outcome w tr GET info_url NoPayload) as [[e H]|[v H]].
  - exists (error_dict (str_exn e)). split.
    + unfold get_vector_db_info.
      erewrite try_except_raise by (apply call_body_fails; exact H).
      reflexivity.
    + rewrite (get_uploaded_files_info_fails w tr e (call_fails_index _ _ _ H)).
      reflexivity.
  - exists v. split.
    + unfold get_vector_db_info.
      erewrite try_except_ok by (apply call_body_returns; exact H).
      reflexivity.
    + destruct (is_object v) eqn:Ho.
      * destruct H as (r & H & Hb). destruct v; try discriminate.
        rewrite (get_uploaded_files_info_succeeds w tr r (JObj kvs)
                   (files_of_info (JObj kvs)) H Hb); [reflexivity|].
        simpl. destruct (assoc "files" kvs); reflexivity.
      * rewrite (get_uploaded_files_info_attribute_error w tr v H Ho).
        destruct v; try discriminate; reflexivity.
Qed.

(** X8: a reply whose body is not a JSON object (a list, a string, null,
    ...) is taken for a failed fetch: the listing is empty, and what the
    console shows is the body and the [AttributeError] of [.get]. *)
Theorem get_uploaded_files_info_not_object w tr info :
  call_returns w tr GET (BASE_URL ++ "/vector-db/info") NoPayload info ->
  is_object info = false ->
  get_uploaded_files_info w tr
  = (Ok (JArr []),
     (tr ++ [EvRequest GET (BASE_URL ++ "/vector-db/info") NoPayload;
             EvPrint [JStr "[DEBUG] /vector-db/info response:"; info];
             EvPrint [JStr ("[DEBUG] Error fetching files: '"
                              ++ py_type_name info
                              ++ "' object has no attribute 'get'")]])%list).
Proof. apply get_uploaded_files_info_attribute_error. Qed.

Lemma get_uploaded_files_info_not_object_witness :
  get_uploaded_files_info (world_body (JArr [document_record "id1" "a.pdf"])) []
  = (Ok (JArr []),
     [EvRequest GET (BASE_URL ++ "/vector-db/info") NoPayload;
      EvPrint [JStr "[DEBUG] /vector-db/info response:";
               JArr [document_record "id1" "a.pdf"]];
      EvPrint [JStr "[DEBUG] Error fetching files: 'list' object has no attribute 'get'"]]).
Proof.
  apply (get_uploaded_files_info_not_object
           (world_body (JArr [document_record "id1" "a.pdf"])) []
           (JArr [document_record "id1" "a.pdf"])); [|reflexivity].
  eexists. split; [split|]; reflexivity.
Defined.

(** ** The listing and the deletion on malformed and failed fetches *)

Lemma getitem_lacks_key k f :
  lacks_key k f -> py_getitem f k = Raise (mkExn KeyError ("'" ++ k ++ "'")).
Proof. intros (kvs & -> & H). simpl. now rewrite H. Qed.

Lemma comprehension_raises {A} (g : json -> result A) before f after e :
  Forall (fun x => exists y, g x = Ok y) before ->
  g f = Raise e ->
  comprehension g (before ++ f :: after) = Raise e.
Proof.
  intros Hb Hf. induction Hb as [|x before [y Hy] _ IH]; simpl.
  - now rewrite Hf.
  - rewrite Hy. simpl. now rewrite IH.
Qed.

Lemma fetch_returns_files w tr info files :
  call_returns w tr GET info_url NoPayload info ->
  py_get info "files" (JArr []) = Ok files ->
  get_uploaded_files_info w tr
  = (Ok files,
     (tr ++ [info_request;
             EvPrint [JStr "[DEBUG] /vector-db/info response:"; info]])%list).
Proof.
  intros (r & H & Hb) Hg.
  now rewrite (get_uploaded_files_info_succeeds w tr r info files H Hb Hg).
Qed.

(** X9: the projection to filenames is outside any [try]: when a record of
    the listing has no ["filename"] key, [get_filenames_list] raises the
    [KeyError] to its caller instead of returning a list. *)
Theorem get_filenames_list_missing_filename w tr info before f after :
  call_returns w tr GET (BASE_URL ++ "/vector-db/info") NoPayload info ->
  py_get info "files" (JArr []) = Ok (JArr (before ++ f :: after)) ->
  Forall has_filename before ->
  lacks_key "filename" f ->
  get_filenames_list w tr
  = (Raise (mkExn KeyError "'filename'"),
     (tr ++ [EvRequest GET (BASE_URL ++ "/vector-db/info") NoPayload;
             EvPrint [JStr "[DEBUG] /vector-db/info response:"; info]])%list).
Proof.
  intros Hc Hg Hb Hf. unfold get_filenames_list.
  erewrite bind_ok by (eapply fetch_returns_files; eassumption).
  unfold bind, lift. simpl.
  rewrite (comprehension_raises _ before f after
             (mkExn KeyError "'filename'")); [reflexivity|exact Hb|].
  now apply (getitem_lacks_key "filename").
Qed.

Lemma get_filenames_list_missing_filename_witness :
  get_filenames_list
    (world_listing [document_record "id1" "a.pdf";
                    JObj [("file_id", JStr "id2")]]) []
  = (Raise (mkExn KeyError "'filename'"),
     [EvRequest GET (BASE_URL ++ "/vector-db/info") NoPayload;
      EvPrint [JStr "[DEBUG] /vector-db/info response:";
               JObj [("files",
                      JArr [document_record "id1" "a.pdf";
                            JObj [("file_id", JStr "id2")]])]]]).
Proof.
  apply (get_filenames_list_missing_filename _ []
           (JObj [("files", JArr [document_record "id1" "a.pdf";
                                  JObj [("file_id", JStr "id2")]])])
           [document_record "id1" "a.pdf"] (JObj [("file_id", JStr "id2")]) []).
  - eexists. split; [split|]; reflexivity.
  - reflexivity.
  - repeat constructor. eexists. reflexivity.
  - eexists. split; reflexivity.
Defined.

Lemma delete_loop_not_iterable py_repr w files_info fname rest acc tr e :
  py_iter files_info = Raise e ->
  delete_loop py_repr files_info (fname :: rest) acc w tr = (Raise e, tr).
Proof.
  intros H. cbn [delete_loop]. apply bind_raise.
  unfold delete_one. destruct acc as [deleted errors].
  unfold bind, lift. now rewrite H.
Qed.

Lemma delete_files_from_db_raises py_repr w tr filenames files tr1 e tr' :
  filenames <> [] ->
  get_uploaded_files_info w tr = (Ok files, tr1) ->
  delete_loop py_repr files filenames ([], []) w tr1 = (Raise e, tr') ->
  delete_files_from_db py_repr filenames w tr = (Raise e, tr').
Proof.
  intros Hne Hfetch Hloop. destruct filenames as [|fname rest]; [contradiction|].
  unfold delete_files_from_db.
  erewrite bind_ok by exact Hfetch.
  erewrite bind_raise by exact Hloop. reflexivity.
Qed.

(** X10: a ["files"] entry that cannot be iterated (null, a number, a
    boolean) is not caught anywhere: the listing of filenames raises the
    [TypeError], and so does the deletion of any non-empty selection,
    before any delete request. *)
Theorem files_not_iterable_raises py_repr w tr info files e :
  call_returns w tr GET (BASE_URL ++ "/vector-db/info") NoPayload info ->
  py_get info "files" (JArr []) = Ok files ->
  py_iter files = Raise e ->
  get_filenames_list w tr
  = (Raise e,
     (tr ++ [EvRequest GET (BASE_URL ++ "/vector-db/info") NoPayload;
             EvPrint [JStr "[DEBUG] /vector-db/info response:"; info]])%list)
  /\ forall fname rest,
      delete_files_from_db py_repr (fname :: rest) w tr
      = (Raise e,
         (tr ++ [EvRequest GET (BASE_URL ++ "/vector-db/info") NoPayload;
                 EvPrint [JStr "[DEBUG] /vector-db/info response:";
                          info]])%list).
Proof.
  intros Hc Hg Hi. split.
  - unfold get_filenames_list.
    erewrite bind_ok by (eapply fetch_returns_files; eassumption).
    unfold bind, lift. now rewrite Hi.
  - intros fname rest.
    eapply delete_files_from_db_raises;
      [discriminate|eapply fetch_returns_files; eassumption|].
    now apply delete_loop_not_iterable.
Qed.

Lemma files_not_iterable_raises_witness :
  get_filenames_list (world_body (JObj [("files", JNull)])) []
  = (Raise (mkExn TypeError "'NoneType' object is not iterable"),
     [EvRequest GET (BASE_URL ++ "/vector-db/info") NoPayload;
      EvPrint [JStr "[DEBUG] /vector-db/info response:";
               JObj [("files", JNull)]]])
  /\ delete_files_from_db repr_none ["a.pdf"]
       (world_body (JObj [("files", JNull)])) []
     = (Raise (mkExn TypeError "'NoneType' object is not iterable"),
        [EvRequest GET (BASE_URL ++ "/vector-db/info") NoPayload;
         EvPrint [JStr "[DEBUG] /vector-db/info response:";
                  JObj [("files", JNull)]]]).
Proof.
  assert (Hc : call_returns (world_body (JObj [("files", JNull)])) [] GET
                 (BASE_URL ++ "/vector-db/info") NoPayload
                 (JObj [("files", JNull)]))
    by (eexists; split; [split|]; reflexivity).
  pose proof (files_not_iterable_raises repr_none
                (world_body (JObj [("files", JNull)])) []
                (JObj [("files", JNull)]) JNull
                (mkExn TypeError "'NoneType' object is not iterable")
                Hc eq_refl eq_refl) as [H1 H2].
  split; [exact H1|exact (H2 "a.pdf" [])].
Defined.

Lemma find_file_id_raises before g after fname e :
  Forall (other_file fname) before ->
  py_getitem g "filename" = Raise e ->
  find_file_id (before ++ g :: after) fname = Raise e.
Proof.
  intros Hb Hg. induction Hb as [|x before (v & Hv & Hne) _ IH]; simpl.
  - now rewrite Hg.
  - rewrite Hv. simpl. now rewrite Hne.
Qed.

(** X11: a record without a ["filename"] key that comes before any record
    of the first selected filename makes [delete_files_from_db] raise the
    [KeyError]: no summary is returned and no delete request is sent,
    whatever else is selected. *)
Theorem delete_files_from_db_record_without_filename
    py_repr w tr tr1 fname rest before g after :
  get_uploaded_files_info w tr = (Ok (JArr (before ++ g :: after)), tr1) ->
  Forall (other_file fname) before ->
  lacks_key "filename" g ->
  delete_files_from_db py_repr (fname :: rest) w tr
  = (Raise (mkExn KeyError "'filename'"), tr1).
Proof.
  intros Hfetch Hb Hg.
  eapply delete_files_from_db_raises; [discriminate|exact Hfetch|].
  cbn [delete_loop]. apply bind_raise.
  unfold delete_one, bind, lift. simpl.
  rewrite (find_file_id_raises before g after fname
             (mkExn KeyError "'filename'") Hb); [reflexivity|].
  now apply (getitem_lacks_key "filename").
Qed.

Lemma delete_files_from_db_record_without_filename_witness :
  delete_files_from_db repr_none ["a.pdf"; "b.pdf"]
    (world_listing [document_record "id0" "b.pdf";
                    JObj [("file_id", JStr "id2")];
                    document_record "id1" "a.pdf"]) []
  = (Raise (mkExn KeyError "'filename'"),
     [info_request;
      EvPrint [JStr "[DEBUG] /vector-db/info response:";
               JObj [("files",
                      JArr [document_record "id0" "b.pdf";
                            JObj [("file_id", JStr "id2")];
                            document_record "id1" "a.pdf"])]]]).
Proof.
  apply (delete_files_from_db_record_without_filename repr_none _ [] _
           "a.pdf" ["b.pdf"] [document_record "id0" "b.pdf"]
           (JObj [("file_id", JStr "id2")]) [document_record "id1" "a.pdf"]).
  - reflexivity.
  - exact b_pdf_is_other.
  - eexists. split; reflexivity.
Defined.

(** ** The deletion loop *)

(** X12: on a listing whose records have both keys, what a non-empty
    selection sends after the one fetch of the listing is, for each
    selected filename in order, the delete request for the identifier of
    its first record when that identifier is truthy, and nothing else. *)
Theorem delete_files_from_db_requests py_repr w tr tr1 filenames files :
  filenames <> [] ->
  get_uploaded_files_info w tr = (Ok (JArr files), tr1) ->
  Forall has_record_keys files ->
  snd (delete_files_from_db py_repr filenames w tr)
  = (tr1 ++ flat_map
              (fun fname =>
                 match find_file_id files fname with
                 | Ok file_id =>
                     if truthy file_id
                     then [EvRequest DELETE
                             (BASE_URL ++ "/vector-db/delete-document/"
                                ++ py_str py_repr file_id) NoPayload]
                     else []
                 | Raise _ => []
                 end) filenames)%list.
Proof.
  intros Hne Hfetch Hk.
  destruct (delete_files_from_db_summary py_repr w tr filenames files tr1
              Hne Hfetch Hk) as (d & e & H & _).
  rewrite H. reflexivity.
Qed.

Lemma colliding_files_keys : Forall has_record_keys colliding_files.
Proof. repeat constructor; eexists; reflexivity. Defined.

Lemma delete_files_from_db_requests_witness :
  snd (delete_files_from_db repr_none ["a.pdf"; "c.pdf"; "a.pdf"]
         (world_listing colliding_files) [])
  = [info_request;
     EvPrint [JStr "[DEBUG] /vector-db/info response:";
              JObj [("files", JArr colliding_files)]];
     EvRequest DELETE (BASE_URL ++ "/vector-db/delete-document/id1") NoPayload;
     EvRequest DELETE (BASE_URL ++ "/vector-db/delete-document/id1") NoPayload].
Proof.
  apply (delete_files_from_db_requests repr_none
           (world_listing colliding_files) []
           [info_request;
            EvPrint [JStr "[DEBUG] /vector-db/info response:";
                     JObj [("files", JArr colliding_files)]]]
           ["a.pdf"; "c.pdf"; "a.pdf"] colliding_files);
    [discriminate|reflexivity|exact colliding_files_keys].
Defined.

Lemma delete_loop_none_found py_repr w files filenames :
  Forall (fun fname => exists file_id,
              find_file_id files fname = Ok file_id
              /\ truthy file_id = false) filenames ->
  forall deleted errors tr,
    delete_loop py_repr (JArr files) filenames (deleted, errors) w tr
    = (Ok (deleted, (errors ++ not_found_entries filenames)%list), tr).
Proof.
  induction 1 as [|fname rest (file_id & Hid & Hf) _ IH];
    intros deleted errors tr; simpl.
  - now rewrite app_nil_r.
  - erewrite bind_ok by (apply (delete_one_not_found py_repr w files fname
                                  file_id Hid); exact Hf).
    rewrite IH. now rewrite <- app_assoc.
Qed.

Lemma delete_summary_errors_only e errors :
  delete_summary [] (e :: errors)
  = "Errors: " ++ String.concat "; " (e :: errors).
Proof. reflexivity. Qed.

(** X13: when the fetch of the listing fails, [delete_files_from_db] sends
    no delete request and reports every selected filename as
    "Not found": the failure of the fetch itself is only printed. *)
Theorem delete_files_from_db_fetch_fails py_repr w tr e fname rest :
  index_fetch_fails w tr e ->
  delete_files_from_db py_repr (fname :: rest) w tr
  = (Ok ("Errors: "
           ++ String.concat "; "
                (map (fun f => f ++ ": Not found") (fname :: rest))),
     (tr ++ [EvRequest GET (BASE_URL ++ "/vector-db/info") NoPayload;
             EvPrint [JStr ("[DEBUG] Error fetching files: "
                              ++ str_exn e)]])%list).
Proof.
  intros H.
  rewrite (delete_files_from_db_run py_repr w tr (fname :: rest) (JArr [])
             (tr ++ [info_request]
                 ++ [EvPrint [JStr ("[DEBUG] Error fetching files: "
                                      ++ str_exn e)]])%list
             ([], not_found_entries (fname :: rest))
             (tr ++ [info_request]
                 ++ [EvPrint [JStr ("[DEBUG] Error fetching files: "
                                      ++ str_exn e)]])%list).
  - reflexivity.
  - discriminate.
  - now apply get_uploaded_files_info_fails.
  - apply (delete_loop_none_found py_repr w [] (fname :: rest)).
    apply Forall_forall. intros f _. exists JNull. now split.
Qed.

Lemma delete_files_from_db_fetch_fails_witness :
  delete_files_from_db repr_none ["a.pdf"; "b.pdf"] world_down []
  = (Ok "Errors: a.pdf: Not found; b.pdf: Not found",
     [EvRequest GET (BASE_URL ++ "/vector-db/info") NoPayload;
      EvPrint [JStr "[DEBUG] Error fetching files: Connection refused"]]).
Proof.
  exact (delete_files_from_db_fetch_fails repr_none world_down []
           connection_refused "a.pdf" ["b.pdf"] world_down_fetch_fails).
Defined.

(** X14: for a selection of one filename that resolves to a truthy
    identifier, the outcome follows the delete request alone: a reply
    without an error status gives "Deleted: fname. " -- its body is not
    decoded --, and a failed request gives "Errors: fname: " followed by
    the text of the exception. *)
Theorem delete_files_from_db_single py_repr w tr tr1 files fname file_id :
  get_uploaded_files_info w tr = (Ok (JArr files), tr1) ->
  find_file_id files fname = Ok file_id ->
  truthy file_id = true ->
  (forall r,
      request_succeeds w tr1 DELETE
        (BASE_URL ++ "/vector-db/delete-document/" ++ py_str py_repr file_id)
        NoPayload r ->
      delete_files_from_db py_repr [fname] w tr
      = (Ok ("Deleted: " ++ fname ++ ". "),
         (tr1 ++ [delete_request py_repr file_id])%list))
  /\ (forall e,
         request_fails w tr1 DELETE
           (BASE_URL ++ "/vector-db/delete-document/" ++ py_str py_repr file_id)
           NoPayload e ->
         delete_files_from_db py_repr [fname] w tr
         = (Ok ("Errors: " ++ fname ++ ": " ++ str_exn e),
            (tr1 ++ [delete_request py_repr file_id])%list)).
Proof.
  intros Hfetch Hid Ht. split.
  - intros r Hr.
    rewrite (delete_files_from_db_run py_repr w tr [fname] (JArr files) tr1
               ([fname], []) (tr1 ++ [delete_request py_repr file_id])%list);
      [reflexivity|discriminate|exact Hfetch|].
    cbn [delete_loop].
    erewrite bind_ok
      by (apply (delete_one_deleted py_repr w files fname file_id Hid [] []
                   tr1 r Ht Hr)).
    reflexivity.
  - intros e Hr.
    rewrite (delete_files_from_db_run py_repr w tr [fname] (JArr files) tr1
               ([], [error_entry fname (str_exn e)])
               (tr1 ++ [delete_request py_repr file_id])%list);
      [reflexivity|discriminate|exact Hfetch|].
    cbn [delete_loop].
    erewrite bind_ok
      by (apply (delete_one_failed py_repr w files fname file_id Hid [] []
                   tr1 e Ht Hr)).
    reflexivity.
Qed.

Lemma delete_files_from_db_single_witness :
  delete_files_from_db repr_none ["a.pdf"] (world_listing colliding_files) []
  = (Ok "Deleted: a.pdf. ",
     [info_request;
      EvPrint [JStr "[DEBUG] /vector-db/info response:";
               JObj [("files", JArr colliding_files)]];
      EvRequest DELETE (BASE_URL ++ "/vector-db/delete-document/id1")
        NoPayload])
  /\ delete_files_from_db repr_none ["a.pdf"]
       (world_refusing colliding_files) []
     = (Ok "Errors: a.pdf: 404 Client Error: Not Found",
        [info_request;
         EvPrint [JStr "[DEBUG] /vector-db/info response:";
                  JObj [("files", JArr colliding_files)]];
         EvRequest DELETE (BASE_URL ++ "/vector-db/delete-document/id1")
           NoPayload]).
Proof.
  split.
  - apply (proj1 (delete_files_from_db_single repr_none
                    (world_listing colliding_files) [] _ colliding_files
                    "a.pdf" (JStr "id1") eq_refl eq_refl eq_refl)
             (mkResponse 200 (mkExn RequestException "")
                (Ok (JObj [("status", JStr "ok")])))).
    split; reflexivity.
  - apply (proj2 (delete_files_from_db_single repr_none
                    (world_refusing colliding_files) [] _ colliding_files
                    "a.pdf" (JStr "id1") eq_refl eq_refl eq_refl)
             not_found_error).
    exact (status_fails (world_refusing colliding_files) _ DELETE _ NoPayload
             (mkResponse 404 not_found_error (Ok JNull)) eq_refl eq_refl).
Defined.

Lemma delete_one_counts py_repr w files_info fname deleted errors tr d e tr' :
  delete_one py_repr files_info fname (deleted, errors) w tr
  = (Ok (d, e), tr') ->
  List.length d + List.length e
  = S (List.length deleted + List.length errors).
Proof.
  unfold delete_one, bind, lift, try_except, requests_request, ret.
  destruct (py_iter files_info) as [items|]; [|discriminate].
  destruct (find_file_id items fname) as [file_id|]; [|discriminate].
  destruct (truthy file_id).
  - destruct (http_send _ _ _ _ _) as [r|].
    + destruct (raise_for_status r); intros H; inversion H; subst;
        rewrite length_app; simpl; lia.
    + intros H; inversion H; subst. rewrite length_app; simpl; lia.
  - intros H; inversion H; subst. rewrite length_app; simpl; lia.
Qed.

Lemma delete_loop_counts py_repr w files_info filenames :
  forall deleted errors tr d e tr',
    delete_loop py_repr files_info filenames (deleted, errors) w tr
    = (Ok (d, e), tr') ->
    List.length d + List.length e
    = List.length deleted + List.length errors + List.length filenames.
Proof.
  induction filenames as [|fname rest IH]; intros deleted errors tr d e tr' H.
  - inversion H; subst. simpl. lia.
  - cbn [delete_loop] in H. unfold bind in H.
    destruct (delete_one py_repr files_info fname (deleted, errors) w tr)
      as [[[d1 e1]|] tr1] eqn:H1; [|discriminate].
    apply delete_one_counts in H1. apply IH in H. simpl. lia.
Qed.

(** X15: a call with a non-empty selection never returns
    "No files deleted." (nor "No files selected."): when the loop ends,
    every selected filename is in one of the two lists, so the summary
    starts with "Deleted: " or with "Errors: ". *)
Theorem delete_files_from_db_never_nothing py_repr w tr fname rest msg tr' :
  delete_files_from_db py_repr (fname :: rest) w tr = (Ok msg, tr') ->
  msg <> "No files deleted." /\ msg <> "No files selected."
  /\ (exists text, msg = "Deleted: " ++ text \/ msg = "Errors: " ++ text).
Proof.
  unfold delete_files_from_db, bind at 1.
  destruct (get_uploaded_files_info w tr) as [[files|] tr1]; [|discriminate].
  unfold bind.
  destruct (delete_loop py_repr files (fname :: rest) ([], []) w tr1)
    as [[[d e]|] tr2] eqn:Hloop; [|discriminate].
  apply delete_loop_counts in Hloop. simpl in Hloop.
  intros H. inversion H; subst. rewrite delete_summary_spec.
  destruct d as [|d0 d], e as [|e0 e]; simpl in Hloop; try lia; simpl;
    (split; [discriminate|split; [discriminate|eexists; eauto]]).
Qed.

Lemma delete_files_from_db_never_nothing_witness :
  delete_files_from_db repr_none ["a.pdf"; "missing.pdf"] world_one_file []
  = (Ok "Deleted: a.pdf. Errors: missing.pdf: Not found",
     [info_request;
      EvPrint [JStr "[DEBUG] /vector-db/info response:"; index_one_file];
      EvRequest DELETE (BASE_URL ++ "/vector-db/delete-document/id1")
        NoPayload])
  /\ "Deleted: a.pdf. Errors: missing.pdf: Not found" <> "No files deleted."
  /\ "Deleted: a.pdf. Errors: missing.pdf: Not found" <> "No files selected."
  /\ (exists text,
         "Deleted: a.pdf. Errors: missing.pdf: Not found" = "Deleted: " ++ text
         \/ "Deleted: a.pdf. Errors: missing.pdf: Not found"
            = "Errors: " ++ text).
Proof.
  split; [reflexivity|].
  exact (delete_files_from_db_never_nothing repr_none world_one_file []
           "a.pdf" ["missing.pdf"] _ _ eq_refl).
Defined.

(** ** More on the chat turn *)

(** X16: in every world a chat turn raises nothing, sends exactly one
    request, the POST to /chat, and returns the input transcript followed
    by one pair whose user side is the message. *)
Theorem chat_with_documents_one_pair py_repr message history w tr :
  exists reply,
    chat_with_documents py_repr message history w tr
    = (Ok (history ++ [(JStr message, reply)])%list,
       (tr ++ [EvRequest POST (BASE_URL ++ "/chat")
                 (JsonPayload
                    (JObj [("query", JStr message);
                           ("history", JArr (api_history_of history))]))])%list).
Proof.
  destruct (chat_with_documents_keeps_message py_repr message history w tr)
    as (reply & tr' & H).
  exists reply. rewrite H. f_equal.
  pose proof (chat_with_documents_trace py_repr message history w tr) as Ht.
  rewrite H in Ht. exact Ht.
Qed.

(** X17: the wire history of a transcript extended by more pairs is the
    wire history of the transcript followed by that of the new pairs. *)
Theorem api_history_of_app h1 h2 :
  api_history_of (h1 ++ h2)%list
  = (api_history_of h1 ++ api_history_of h2)%list.
Proof. rewrite !api_history_flat. apply flat_map_app. Qed.

(** X18: the transcript a turn returns, given to the next turn, makes that
    turn send the history the first one sent followed by the first
    message as "user" and what the first turn put beside it -- an answer
    or an "Error: ..." text -- as "assistant". *)
Theorem chat_turns_compose py_repr m1 m2 history w tr out tr1 :
  chat_with_documents py_repr m1 history w tr = (Ok out, tr1) ->
  exists reply,
    out = (history ++ [(JStr m1, reply)])%list
    /\ snd (chat_with_documents py_repr m2 out w tr1)
       = (tr1 ++ [EvRequest POST (BASE_URL ++ "/chat")
                    (JsonPayload
                       (JObj [("query", JStr m2);
                              ("history",
                               JArr (api_history_of history
                                       ++ [history_entry "user" (JStr m1);
                                           history_entry "assistant" reply]))]))])%list.
Proof.
  intros H.
  destruct (chat_with_documents_keeps_message py_repr m1 history w tr)
    as (reply & tr' & H').
  rewrite H in H'. inversion H'; subst. exists reply. split; [reflexivity|].
  rewrite chat_with_documents_trace. unfold chat_request, chat_url.
  rewrite !api_history_flat, flat_map_app. reflexivity.
Qed.

Lemma chat_turns_compose_witness :
  chat_with_documents repr_none "q1" [] world_down []
  = (Ok [(JStr "q1", JStr "Error: Connection refused")],
     [chat_request "q1" []])
  /\ exists reply,
      [(JStr "q1", JStr "Error: Connection refused")]
      = ([] ++ [(JStr "q1", reply)])%list
      /\ snd (chat_with_documents repr_none "q2"
                [(JStr "q1", JStr "Error: Connection refused")] world_down
                [chat_request "q1" []])
         = ([chat_request "q1" []]
              ++ [EvRequest POST (BASE_URL ++ "/chat")
                    (JsonPayload
                       (JObj [("query", JStr "q2");
                              ("history",
                               JArr (api_history_of []
                                       ++ [history_entry "user" (JStr "q1");
                                           history_entry "assistant" reply]))]))])%list.
Proof.
  split; [reflexivity|].
  exact (chat_turns_compose repr_none "q1" "q2" [] world_down [] _ _ eq_refl).
Defined.

Lemma chat_with_documents_format_raises
    py_repr message history w tr res e :
  chat_reply w tr message history res ->
  format_answer py_repr res = Raise e ->
  chat_with_documents py_repr message history w tr
  = (Ok (history ++ [(JStr message, JStr ("Error: " ++ str_exn e))])%list,
     (tr ++ [chat_request message history])%list).
Proof.
  intros (r & Hr & Hb) Hf. unfold chat_with_documents.
  erewrite try_except_raise; [reflexivity|].
  unfold chat_attempt. step_request Hr.
  unfold bind, lift. rewrite Hb, Hf. reflexivity.
Qed.

(** X19: when the call to the back-end fails -- transport, error status or
    a body that does not decode --, the assistant side of the new pair is
    "Error: " followed by the text of that exception. *)
Theorem chat_with_documents_call_fails py_repr message history w tr e :
  call_fails w tr POST (BASE_URL ++ "/chat")
    (JsonPayload (JObj [("query", JStr message);
                        ("history", JArr (api_history_of history))])) e ->
  chat_with_documents py_repr message history w tr
  = (Ok (history ++ [(JStr message, JStr ("Error: " ++ str_exn e))])%list,
     (tr ++ [chat_request message history])%list).
Proof.
  intros H. unfold chat_with_documents.
  erewrite try_except_raise; [reflexivity|].
  unfold chat_attempt.
  destruct H as [e' H | r e' H Hb]; step_request H; [reflexivity|].
  unfold bind, lift. rewrite Hb. reflexivity.
Qed.

Lemma chat_with_documents_call_fails_witness :
  chat_with_documents repr_none "q" [] (world_refusing []) []
  = (Ok [(JStr "q", JStr "Error: 404 Client Error: Not Found")],
     [chat_request "q" []]).
Proof.
  apply (chat_with_documents_call_fails repr_none "q" [] (world_refusing [])
           [] not_found_error).
  apply call_request_fails.
  exact (status_fails (world_refusing []) [] POST _ _
           (mkResponse 404 not_found_error (Ok JNull)) eq_refl eq_refl).
Defined.

(** X20: a reply without the key ["answer"], or with it and without the key
    ["sources"], turns into the pair [(message, "Error: 'answer'")],
    respectively [(message, "Error: 'sources'")]: an answer that came
    without sources is not shown. *)
Theorem chat_with_documents_key_missing py_repr message history w tr res :
  chat_reply w tr message history res ->
  (lacks_key "answer" res ->
   chat_with_documents py_repr message history w tr
   = (Ok (history ++ [(JStr message, JStr "Error: 'answer'")])%list,
      (tr ++ [chat_request message history])%list))
  /\ (forall answer,
         py_getitem res "answer" = Ok answer ->
         lacks_key "sources" res ->
         chat_with_documents py_repr message history w tr
         = (Ok (history ++ [(JStr message, JStr "Error: 'sources'")])%list,
            (tr ++ [chat_request message history])%list)).
Proof.
  intros Hr. split.
  - intros Hk.
    apply (chat_with_documents_format_raises _ _ _ _ _ res
             (mkExn KeyError "'answer'") Hr).
    unfold format_answer. now rewrite (getitem_lacks_key "answer" res Hk).
  - intros answer Ha Hk.
    apply (chat_with_documents_format_raises _ _ _ _ _ res
             (mkExn KeyError "'sources'") Hr).
    unfold format_answer. rewrite Ha. simpl.
    now rewrite (getitem_lacks_key "sources" res Hk).
Qed.

Lemma world_body_chat_reply body message history tr :
  chat_reply (world_body body) tr message history body.
Proof. eexists. split; [split|]; reflexivity. Defined.

Lemma chat_with_documents_key_missing_witness :
  chat_with_documents repr_none "q" [] (world_body (JObj [])) []
  = (Ok [(JStr "q", JStr "Error: 'answer'")], [chat_request "q" []])
  /\ chat_with_documents repr_none "q" []
       (world_body (JObj [("answer", JStr "A")])) []
     = (Ok [(JStr "q", JStr "Error: 'sources'")], [chat_request "q" []]).
Proof.
  split.
  - apply (proj1 (chat_with_documents_key_missing repr_none "q" []
                    (world_body (JObj [])) [] (JObj [])
                    (world_body_chat_reply _ _ _ _))).
    eexists. split; reflexivity.
  - apply (proj2 (chat_with_documents_key_missing repr_none "q" []
                    (world_body (JObj [("answer", JStr "A")])) []
                    (JObj [("answer", JStr "A")])
                    (world_body_chat_reply _ _ _ _)) (JStr "A"));
      [reflexivity|].
    eexists. split; reflexivity.
Defined.

(** X21: the sources block is added on the truthiness of ["sources"]: a
    reply whose sources are null, an empty string, an empty object, zero
    or false gives the raw answer, whatever its type, like an empty list
    does. *)
Theorem chat_with_documents_falsy_sources
    py_repr message history w tr res answer sources :
  chat_reply w tr message history res ->
  py_getitem res "answer" = Ok answer ->
  py_getitem res "sources" = Ok sources ->
  truthy sources = false ->
  chat_with_documents py_repr message history w tr
  = (Ok (history ++ [(JStr message, answer)])%list,
     (tr ++ [chat_request message history])%list).
Proof.
  intros Hr Ha Hs Ht.
  apply (chat_with_documents_reply _ _ _ _ _ res answer Hr).
  unfold format_answer. rewrite Ha, Hs. simpl. now rewrite Ht.
Qed.

Lemma chat_with_documents_falsy_sources_witness :
  chat_with_documents repr_none "q" []
    (world_body (JObj [("answer", JStr "A"); ("sources", JNull)])) []
  = (Ok [(JStr "q", JStr "A")], [chat_request "q" []]).
Proof.
  exact (chat_with_documents_falsy_sources repr_none "q" []
           (world_body (JObj [("answer", JStr "A"); ("sources", JNull)])) []
           _ (JStr "A") JNull (world_body_chat_reply _ _ _ _)
           eq_refl eq_refl eq_refl).
Defined.

Lemma source_line_total py_repr s :
  has_filename s -> exists line, source_line py_repr s = Ok line.
Proof. intros [v Hv]. unfold source_line. rewrite Hv. eexists. reflexivity. Qed.

Lemma comprehension_total py_repr srcs :
  Forall has_filename srcs ->
  exists lines, comprehension (source_line py_repr) srcs = Ok lines.
Proof.
  induction 1 as [|s srcs Hs _ [lines IH]]; simpl.
  - eexists. reflexivity.
  - destruct (source_line_total py_repr s Hs) as [line Hl].
    rewrite Hl. simpl. rewrite IH. eexists. reflexivity.
Qed.

(** X22: one source without a ["filename"] key discards the whole answer:
    the pair holds "Error: 'filename'" instead, whatever the other
    sources are. *)
Theorem chat_with_documents_source_without_filename
    py_repr message history w tr res answer before s after :
  chat_reply w tr message history res ->
  py_getitem res "answer" = Ok answer ->
  py_getitem res "sources" = Ok (JArr (before ++ s :: after)) ->
  Forall has_filename before ->
  lacks_key "filename" s ->
  chat_with_documents py_repr message history w tr
  = (Ok (history ++ [(JStr message, JStr "Error: 'filename'")])%list,
     (tr ++ [chat_request message history])%list).
Proof.
  intros Hr Ha Hs Hb Hk.
  apply (chat_with_documents_format_raises _ _ _ _ _ res
           (mkExn KeyError "'filename'") Hr).
  unfold format_answer. rewrite Ha, Hs. simpl.
  replace (match (before ++ s :: after)%list with
           | [] => false | _ :: _ => true end) with true
    by (destruct before; reflexivity).
  rewrite (comprehension_raises (source_line py_repr) before s after
             (mkExn KeyError "'filename'")); [reflexivity| |].
  - eapply Forall_impl; [|exact Hb]. intros x Hx.
    exact (source_line_total py_repr x Hx).
  - unfold source_line.
    now rewrite (getitem_lacks_key "filename" s Hk).
Qed.

Lemma chat_with_documents_source_without_filename_witness :
  chat_with_documents repr_none "q" []
    (world_body (JObj [("answer", JStr "A");
                       ("sources", JArr [source_record "a.pdf";
                                         JObj [("page", JInt 3)]])])) []
  = (Ok [(JStr "q", JStr "Error: 'filename'")], [chat_request "q" []]).
Proof.
  apply (chat_with_documents_source_without_filename repr_none "q" [] _ [] _
           (JStr "A") [source_record "a.pdf"] (JObj [("page", JInt 3)]) []
           (world_body_chat_reply _ _ _ _)).
  - reflexivity.
  - reflexivity.
  - repeat constructor. eexists. reflexivity.
  - eexists. split; reflexivity.
Defined.

(** X23: with one or more sources, each with a filename, an answer that is
    neither a string nor a list (null, a number, a boolean, an object) is
    replaced by the text of the [TypeError] of [+=]; without sources the
    same answer is passed through. *)
Theorem chat_with_documents_answer_not_text
    py_repr message history w tr res answer srcs :
  chat_reply w tr message history res ->
  py_getitem res "answer" = Ok answer ->
  takes_iadd_str answer = false ->
  py_getitem res "sources" = Ok (JArr srcs) ->
  srcs <> [] ->
  Forall has_filename srcs ->
  chat_with_documents py_repr message history w tr
  = (Ok (history
           ++ [(JStr message,
                JStr ("Error: unsupported operand type(s) for +=: '"
                        ++ py_type_name answer ++ "' and 'str'"))])%list,
     (tr ++ [chat_request message history])%list).
Proof.
  intros Hr Ha Hn Hs Hne Hf.
  apply (chat_with_documents_format_raises _ _ _ _ _ res
           (mkExn TypeError
              ("unsupported operand type(s) for +=: '"
                 ++ py_type_name answer ++ "' and 'str'")) Hr).
  unfold format_answer. rewrite Ha, Hs. simpl.
  destruct srcs as [|s srcs]; [contradiction|].
  destruct (comprehension_total py_repr (s :: srcs) Hf) as [lines Hl].
  rewrite Hl. simpl. destruct answer; try discriminate; reflexivity.
Qed.

Lemma chat_with_documents_answer_not_text_witness :
  chat_with_documents repr_none "q" []
    (world_body (JObj [("answer", JNull);
                       ("sources", JArr [source_record "a.pdf"])])) []
  = (Ok [(JStr "q",
          JStr "Error: unsupported operand type(s) for +=: 'NoneType' and 'str'")],
     [chat_request "q" []]).
Proof.
  apply (chat_with_documents_answer_not_text repr_none "q" [] _ [] _
           JNull [source_record "a.pdf"] (world_body_chat_reply _ _ _ _)).
  - reflexivity.
  - reflexivity.
  - reflexivity.
  - discriminate.
  - repeat constructor. eexists. reflexivity.
Defined.
